(** * ScanConversionResamplingMethods.h

    A shallow embedding of [include/ScanConversionResamplingMethods.h]: the
    dispatch function [ScanConversionResampling] and its three adapters
    [ITKScanConversionResampling], [VTKProbeFilterResampling] and
    [VTKPointInterpolatorResampling].

    The header authors no numerical code: every statement is a call into
    ITK or VTK, a print to [std::cerr], an assignment to the by-reference
    parameter [outputImage], or a [return].  The embedding therefore keeps
    the statements in program order in a log, together with the two pieces
    of caller-visible state ([std::cerr] and [outputImage]).  What the
    toolkits compute stays symbolic; whether a toolkit call raises a C++
    exception is decided by an oracle, since the header catches nothing. *)

From Stdlib Require Import ZArith String List Bool Lia.
From Stdlib Require Import PrimFloat SpecFloat FloatOps FloatAxioms.
From Stdlib Require Import DecimalString.
Import ListNotations.

Local Open Scope string_scope.
Local Open Scope Z_scope.
Local Open Scope list_scope.

(* ================================================================= *)
(** ** Scalars and geometry descriptors *)

(** C++ [double]: IEEE 754 binary64. *)
Definition double : Set := float.

(** [std::max(a, b)] is [(a < b) ? b : a]. *)
Definition std_max (a b : double) : double :=
  if PrimFloat.ltb a b then b else a.

(** [itk::SizeValueType] is [unsigned long] (64 bits); products wrap
    modulo 2^64. *)
Definition SizeValueType : Set := Z.

Definition wrap64 (z : Z) : SizeValueType := z mod 2 ^ 64.

Definition mul64 (a b : SizeValueType) : SizeValueType := wrap64 (a * b).

(** C++ [int] is 32 bits wide.  An [unsigned long] argument passed for an
    [int] parameter is converted implicitly: the value is kept when it is
    below 2^31 and reduced modulo 2^32 into the range of [int]
    otherwise. *)
Definition as_int (z : SizeValueType) : Z := (z + 2 ^ 31) mod 2 ^ 32 - 2 ^ 31.

(** [vtkIdType] is a signed 64-bit integer (VTK's 64-bit ids, the
    setting of 64-bit builds).  An [unsigned long] argument passed for a
    [vtkIdType] parameter keeps its 64 bits: values of 2^63 and more
    become negative. *)
Definition vtkIdType : Set := Z.

Definition as_vtkIdType (z : SizeValueType) : vtkIdType :=
  (z + 2 ^ 63) mod 2 ^ 64 - 2 ^ 63.

(** [InputImageType::ImageDimension].  The output image is
    three-dimensional: the VTK adapters read components [0], [1], [2] of
    [size], [spacing] and [origin] and cast from [itk::Image< float, 3 >];
    the input image has the same dimension, since the header instantiates
    [itk::ResampleImageFilter< InputImageType, OutputImageType >], which
    maps each output point to an input point of the same dimension. *)
Definition ImageDimension : nat := 3.

(** [itk::FixedArray<T, 3>] and its relatives ([itk::Size], [itk::Vector],
    [itk::Point], and [itk::Matrix] as an array of rows). *)
Record FixedArray (T : Type) : Type := mkFixedArray
  { elem0 : T; elem1 : T; elem2 : T }.

Arguments mkFixedArray {T} _ _ _.
Arguments elem0 {T} _.
Arguments elem1 {T} _.
Arguments elem2 {T} _.

(** [v[ii]].  [operator[]] checks no bounds: an index past the last
    component has no defined value. *)
Definition component {T : Type} (v : FixedArray T) (ii : nat) : option T :=
  match ii with
  | 0%nat => Some (elem0 v)
  | 1%nat => Some (elem1 v)
  | 2%nat => Some (elem2 v)
  | _ => None
  end.

Definition SizeType : Type := FixedArray SizeValueType.
Definition SpacingType : Type := FixedArray double.
Definition PointType : Type := FixedArray double.
Definition DirectionType : Type := FixedArray (FixedArray double).

(** [<cstdlib>]. *)
Definition EXIT_SUCCESS : Z := 0.
Definition EXIT_FAILURE : Z := 1.

(* ================================================================= *)
(** ** [enum ScanConversionResamplingMethod]

    A C++ unscoped enumeration is an integer; the [switch] statements of
    the header have [default:] labels, which the embedding keeps. *)

Definition ScanConversionResamplingMethod : Set := Z.

Notation ITK_NEAREST_NEIGHBOR := 0%Z.
Notation ITK_LINEAR := 1%Z.
Notation ITK_WINDOWED_SINC := 2%Z.
Notation VTK_PROBE_FILTER := 3%Z.
Notation VTK_GAUSSIAN_KERNEL := 4%Z.
Notation VTK_LINEAR_KERNEL := 5%Z.
Notation VTK_SHEPARD_KERNEL := 6%Z.
Notation VTK_VORONOI_KERNEL := 7%Z.

(* ================================================================= *)
(** ** Toolkit objects, pointers and calls *)

(** The local variables of the three adapters that name toolkit objects. *)
Inductive Object : Set :=
| resampler | interpolator | watchResampler
| conversionFilter | watchConversion
| grid | scalars | probeFilter | pointInterpolator
| gaussianKernel | linearKernel | shepardKernel | voronoiKernel
| vtkToITKFilter | caster | output.

(** Pointer-valued expressions. *)
Inductive Pointer : Set :=
| Held (address : nat)            (* an object the caller holds *)
| Local (o : Object)              (* an object constructed by the adapter *)
| GetOutput (o : Object)          (* o->GetOutput() *)
| GetImageDataOutput (o : Object) (* o->GetImageDataOutput() *)
| GetPointData (o : Object).      (* o->GetPointData() *)

Coercion Local : Object >-> Pointer.

(** [p->GetLargestPossibleRegion()]. *)
Inductive Region : Set :=
| GetLargestPossibleRegion (p : Pointer).

Inductive PixelType : Set := OutputPixel | FloatPixel.

(** Classes instantiated by the header, with their constructor arguments. *)
Inductive Class : Set :=
| ResampleImageFilter
| NearestNeighborInterpolateImageFunction
| LinearInterpolateImageFunction
| WindowedSincInterpolateImageFunction_Lanczos (Radius : nat)
| PluginFilterWatcher (filter : Pointer) (comment : string)
    (CLPProcessInformation : Pointer)
| SpecialCoordinatesImageToVTKStructuredGridFilter
| vtkImageData
| vtkFloatArray
| vtkProbeFilter
| vtkPointInterpolator
| vtkGaussianKernel
| vtkLinearKernel
| vtkShepardKernel
| vtkVoronoiKernel
| VTKImageToImageFilter (pixel : PixelType)
| CastImageFilter (from to : PixelType)
| Image (pixel : PixelType).

Inductive Method : Type :=
| SetInput (image : Pointer)
| SetSize (size : SizeType)
| SetOutputSpacing (spacing : SpacingType)
| SetOutputOrigin (origin : PointType)
| SetOutputDirection (direction : DirectionType)
| SetInterpolator (interpolator : Pointer)
| Update
| SetDimensions (i j k : Z)              (* vtkImageData: (int, int, int) *)
| SetSpacing (x y z : double)
| SetOrigin (x y z : double)
| ComputeBounds
| SetName (name : string)
| AllocateValues (numValues : vtkIdType) (* vtkAbstractArray::Allocate *)
| SetScalars (array : Pointer)
| SetSourceData (source : Pointer)
| SetInputData (input : Pointer)
| SetPassPointArrays (flag : bool)
| SetNullPointsStrategyToNullValue
| SetNullValue (value : double)
| SetKernelFootprintToRadius
| SetRadius (radius : double)
| SetKernel (kernel : Pointer)
| Delete
| SetRegions (region : Region)
| CopyInformation (data : Pointer)
| Allocate.

Inductive Call : Type :=
| New (o : Object) (c : Class)
| Invoke (receiver : Pointer) (m : Method)
| ImageAlgorithm_Copy (inImage outImage : Pointer) (inRegion outRegion : Region).

(** What one invocation does, in program order. *)
Inductive Event : Type :=
| Toolkit (c : Call)
| Print (line : string)              (* std::cerr << ... << std::endl *)
| Assign_outputImage (p : Pointer).  (* outputImage = p *)

Record World : Type := mkWorld
  { trace : list Event;
    cerr : list string;
    outputImage : Pointer }.

(** The world at entry: nothing logged yet, [outputImage] as the caller
    left it. *)
Definition entry (held : Pointer) : World :=
  {| trace := []; cerr := []; outputImage := held |}.

(* ================================================================= *)
(** ** Statements *)

(** How a statement ends. *)
Inductive Flow (A : Type) : Type :=
| Next (a : A)        (* control reaches the next statement *)
| Return (rc : Z)     (* a [return] was executed *)
| Throw (c : Call)    (* a toolkit call raised; nothing here catches it *)
| Undefined.          (* undefined behaviour *)

Arguments Next {A} _.
Arguments Return {A} _.
Arguments Throw {A} _.
Arguments Undefined {A}.

Definition Stmt (A : Type) : Type := World -> Flow A * World.

Definition next {A : Type} (a : A) : Stmt A := fun w => (Next a, w).

Definition seq {A B : Type} (s : Stmt A) (k : A -> Stmt B) : Stmt B :=
  fun w =>
    match s w with
    | (Next a, w') => k a w'
    | (Return rc, w') => (Return rc, w')
    | (Throw c, w') => (Throw c, w')
    | (Undefined, w') => (Undefined, w')
    end.

Declare Scope stmt_scope.
Delimit Scope stmt_scope with stmt.
Bind Scope stmt_scope with Stmt.

Notation "x <- s ;; k" := (seq s (fun x => k))
  (at level 61, s at next level, right associativity) : stmt_scope.
Notation "s ;; k" := (seq s (fun _ => k))
  (at level 61, right associativity) : stmt_scope.

Definition return_ {A : Type} (rc : Z) : Stmt A := fun w => (Return rc, w).

Definition record (e : Event) (w : World) : World :=
  {| trace := trace w ++ [e]; cerr := cerr w; outputImage := outputImage w |}.

(** [std::cerr << line << std::endl]. *)
Definition cerr_endl (line : string) : Stmt unit :=
  fun w =>
    let w' := record (Print line) w in
    (Next tt,
     {| trace := trace w'; cerr := cerr w' ++ [line];
        outputImage := outputImage w' |}).

(** [outputImage = p]. *)
Definition assign_outputImage (p : Pointer) : Stmt unit :=
  fun w =>
    let w' := record (Assign_outputImage p) w in
    (Next tt, {| trace := trace w'; cerr := cerr w'; outputImage := p |}).

(** A value that exists only when the read was in bounds. *)
Definition defined {A : Type} (v : option A) : Stmt A :=
  fun w => match v with Some a => (Next a, w) | None => (Undefined, w) end.

(** [operator<<] on an enumerator prints its integer value. *)
Definition decimal (z : Z) : string := NilZero.string_of_int (Z.to_int z).

(** What a function call produces. *)
Inductive Result : Type :=
| Returned (rc : Z)
| Raised (c : Call)
| Undefined_behaviour.

Definition Function : Type := World -> Result * World.

(** A function body: a statement sequence that cannot fall off its end. *)
Definition body (s : Stmt Empty_set) : Function :=
  fun w =>
    match s w with
    | (Next e, _) => match e with end
    | (Return rc, w') => (Returned rc, w')
    | (Throw c, w') => (Raised c, w')
    | (Undefined, w') => (Undefined_behaviour, w')
    end.

(** The signatures of the three adapters, [outputImage] being part of
    the world. *)
Definition ITK_adapter : Type :=
  Pointer -> SizeType -> SpacingType -> PointType -> DirectionType ->
  ScanConversionResamplingMethod -> Pointer -> Function.

Definition probe_adapter : Type :=
  Pointer -> SizeType -> SpacingType -> PointType -> Pointer -> Function.

Definition point_adapter : Type :=
  Pointer -> SizeType -> SpacingType -> PointType ->
  ScanConversionResamplingMethod -> Pointer -> Function.

(** A call expression [f(...)] inside a statement. *)
Definition call (f : Function) : Stmt Z :=
  fun w =>
    match f w with
    | (Returned rc, w') => (Next rc, w')
    | (Raised c, w') => (Throw c, w')
    | (Undefined_behaviour, w') => (Undefined, w')
    end.

(* ================================================================= *)
(** ** The header's functions *)

Section Header.

(** Which toolkit calls raise a C++ exception. *)
Variable raises : Call -> bool.

Local Open Scope stmt_scope.

(** A toolkit call: logged, then either completes or raises. *)
Definition toolkit (c : Call) : Stmt unit :=
  fun w =>
    let w' := record (Toolkit c) w in
    if raises c then (Throw c, w') else (Next tt, w').

Notation "'new' o c" := (toolkit (New o c))
  (at level 60, o at level 0, c at level 0) : stmt_scope.
Notation "p ~> m" := (toolkit (Invoke p m))
  (at level 60, no associativity) : stmt_scope.

(** Lines 58-117. *)
Definition ITKScanConversionResampling
  (inputImage : Pointer)
  (size : SizeType) (spacing : SpacingType) (origin : PointType)
  (direction : DirectionType)
  (method : ScanConversionResamplingMethod)
  (CLPProcessInformation : Pointer) : Function :=
  body (
    new resampler ResampleImageFilter ;;
    resampler ~> SetInput inputImage ;;

    resampler ~> SetSize size ;;
    resampler ~> SetOutputSpacing spacing ;;
    resampler ~> SetOutputOrigin origin ;;
    resampler ~> SetOutputDirection direction ;;
    match method with
    | ITK_NEAREST_NEIGHBOR =>
        new interpolator NearestNeighborInterpolateImageFunction ;;
        resampler ~> SetInterpolator interpolator
    | ITK_LINEAR =>
        new interpolator LinearInterpolateImageFunction ;;
        resampler ~> SetInterpolator interpolator
    | ITK_WINDOWED_SINC =>
        new interpolator (WindowedSincInterpolateImageFunction_Lanczos 3) ;;
        resampler ~> SetInterpolator interpolator
    | _ =>
        cerr_endl "Unsupported resampling method in ITKScanConversionResampling" ;;
        return_ EXIT_FAILURE
    end ;;

    new watchResampler
      (PluginFilterWatcher resampler "Resample Image" CLPProcessInformation) ;;
    resampler ~> Update ;;
    assign_outputImage (GetOutput resampler) ;;

    return_ EXIT_SUCCESS).

(** Lines 120-169. *)
Definition VTKProbeFilterResampling
  (inputImage : Pointer)
  (size : SizeType) (spacing : SpacingType) (origin : PointType)
  (CLPProcessInformation : Pointer) : Function :=
  body (
    new conversionFilter SpecialCoordinatesImageToVTKStructuredGridFilter ;;
    conversionFilter ~> SetInput inputImage ;;
    new watchConversion
      (PluginFilterWatcher conversionFilter "Convert to vtkStructuredGrid"
         CLPProcessInformation) ;;
    conversionFilter ~> Update ;;
    let inputStructuredGrid := GetOutput conversionFilter in

    new grid vtkImageData ;;
    grid ~> SetDimensions (as_int (elem0 size)) (as_int (elem1 size))
              (as_int (elem2 size)) ;;
    grid ~> SetSpacing (elem0 spacing) (elem1 spacing) (elem2 spacing) ;;
    grid ~> SetOrigin (elem0 origin) (elem1 origin) (elem2 origin) ;;
    grid ~> ComputeBounds ;;

    new probeFilter vtkProbeFilter ;;
    probeFilter ~> SetSourceData inputStructuredGrid ;;
    probeFilter ~> SetInputData grid ;;
    probeFilter ~> Update ;;

    new vtkToITKFilter (VTKImageToImageFilter OutputPixel) ;;
    vtkToITKFilter ~> SetInput (GetImageDataOutput probeFilter) ;;
    vtkToITKFilter ~> Update ;;

    new output (Image OutputPixel) ;;
    output ~> SetRegions (GetLargestPossibleRegion (GetOutput vtkToITKFilter)) ;;
    output ~> Allocate ;;
    toolkit (ImageAlgorithm_Copy
               (GetOutput vtkToITKFilter)
               output
               (GetLargestPossibleRegion output)
               (GetLargestPossibleRegion output)) ;;
    assign_outputImage output ;;

    return_ EXIT_SUCCESS).

(** Lines 214-218: [for( ii = 0; ii < ImageDimension; ++ii )], with
    [remaining] iterations left. *)
Fixpoint maxSpacing_loop (spacing : SpacingType) (remaining ii : nat)
  (maxSpacing : double) : option double :=
  match remaining with
  | O => Some maxSpacing
  | S remaining' =>
      match component spacing ii with
      | Some s => maxSpacing_loop spacing remaining' (S ii) (std_max maxSpacing s)
      | None => None
      end
  end.

(** Lines 172-300. *)
Definition VTKPointInterpolatorResampling
  (inputImage : Pointer)
  (size : SizeType) (spacing : SpacingType) (origin : PointType)
  (method : ScanConversionResamplingMethod)
  (CLPProcessInformation : Pointer) : Function :=
  body (
    new conversionFilter SpecialCoordinatesImageToVTKStructuredGridFilter ;;
    conversionFilter ~> SetInput inputImage ;;
    new watchConversion
      (PluginFilterWatcher conversionFilter "Convert to vtkStructuredGrid"
         CLPProcessInformation) ;;
    conversionFilter ~> Update ;;
    let inputStructuredGrid := GetOutput conversionFilter in
    inputStructuredGrid ~> ComputeBounds ;;

    new grid vtkImageData ;;
    grid ~> SetDimensions (as_int (elem0 size)) (as_int (elem1 size))
              (as_int (elem2 size)) ;;
    grid ~> SetSpacing (elem0 spacing) (elem1 spacing) (elem2 spacing) ;;
    grid ~> SetOrigin (elem0 origin) (elem1 origin) (elem2 origin) ;;
    grid ~> ComputeBounds ;;
    new scalars vtkFloatArray ;;
    scalars ~> SetName "Scalars" ;;
    scalars ~> AllocateValues
      (as_vtkIdType (mul64 (mul64 (elem0 size) (elem1 size)) (elem2 size))) ;;
    GetPointData grid ~> SetScalars scalars ;;

    new pointInterpolator vtkPointInterpolator ;;
    pointInterpolator ~> SetSourceData inputStructuredGrid ;;
    pointInterpolator ~> SetInputData grid ;;
    pointInterpolator ~> SetPassPointArrays false ;;
    pointInterpolator ~> SetNullPointsStrategyToNullValue ;;
    pointInterpolator ~> SetNullValue 0%float ;;

    maxSpacing <- defined (maxSpacing_loop spacing ImageDimension 0 0%float) ;;
    let radius := PrimFloat.mul 1.1%float maxSpacing in

    (* [interpolationKernel] is null until one of the first four cases
       assigns it; the fifth returns. *)
    interpolationKernel <-
      match method with
      | VTK_GAUSSIAN_KERNEL =>
          new gaussianKernel vtkGaussianKernel ;;
          gaussianKernel ~> SetKernelFootprintToRadius ;;
          gaussianKernel ~> SetRadius radius ;;
          next (Local gaussianKernel)
      | VTK_LINEAR_KERNEL =>
          new linearKernel vtkLinearKernel ;;
          linearKernel ~> SetKernelFootprintToRadius ;;
          linearKernel ~> SetRadius radius ;;
          next (Local linearKernel)
      | VTK_SHEPARD_KERNEL =>
          new shepardKernel vtkShepardKernel ;;
          shepardKernel ~> SetKernelFootprintToRadius ;;
          shepardKernel ~> SetRadius radius ;;
          next (Local shepardKernel)
      | VTK_VORONOI_KERNEL =>
          new voronoiKernel vtkVoronoiKernel ;;
          next (Local voronoiKernel)
      | _ =>
          cerr_endl ("Unexpected interpolation kernel: " ++ decimal method)%string ;;
          return_ EXIT_FAILURE
      end ;;

    new vtkToITKFilter (VTKImageToImageFilter FloatPixel) ;;

    match method with
    | VTK_GAUSSIAN_KERNEL
    | VTK_LINEAR_KERNEL
    | VTK_SHEPARD_KERNEL
    | VTK_VORONOI_KERNEL =>
        pointInterpolator ~> SetKernel interpolationKernel ;;
        pointInterpolator ~> Update ;;
        vtkToITKFilter ~> SetInput (GetImageDataOutput pointInterpolator)
    | _ =>
        cerr_endl ("Unexpected interpolation kernel: " ++ decimal method)%string ;;
        return_ EXIT_FAILURE
    end ;;

    vtkToITKFilter ~> Update ;;
    interpolationKernel ~> Delete ;;

    new caster (CastImageFilter FloatPixel OutputPixel) ;;
    caster ~> SetInput (GetOutput vtkToITKFilter) ;;
    caster ~> Update ;;

    new output (Image OutputPixel) ;;
    output ~> SetRegions (GetLargestPossibleRegion (GetOutput caster)) ;;
    output ~> CopyInformation (GetOutput caster) ;;
    output ~> Allocate ;;
    toolkit (ImageAlgorithm_Copy
               (GetOutput caster)
               output
               (GetLargestPossibleRegion output)
               (GetLargestPossibleRegion output)) ;;
    assign_outputImage output ;;
    return_ EXIT_SUCCESS).

(** Lines 318-350: [method] starts as [ITK_LINEAR]; the [if]/[else if]
    chain has no final [else]. *)
Definition method_of (methodString : string) : ScanConversionResamplingMethod :=
  let method := ITK_LINEAR in
  if (methodString =? "ITKNearestNeighbor")%string then ITK_NEAREST_NEIGHBOR
  else if (methodString =? "ITKLinear")%string then ITK_LINEAR
  else if (methodString =? "ITKWindowedSinc")%string then ITK_WINDOWED_SINC
  else if (methodString =? "VTKProbeFilter")%string then VTK_PROBE_FILTER
  else if (methodString =? "VTKGaussianKernel")%string then VTK_GAUSSIAN_KERNEL
  else if (methodString =? "VTKLinearKernel")%string then VTK_LINEAR_KERNEL
  else if (methodString =? "VTKShepardKernel")%string then VTK_SHEPARD_KERNEL
  else if (methodString =? "VTKVoronoiKernel")%string then VTK_VORONOI_KERNEL
  else method.

(** Lines 303-393, with the three functions it calls as parameters:
    what the dispatcher does with the result of a call is written in
    its own body and does not depend on what the callee is. *)
Definition ScanConversionResampling_calling
  (ITKScanConversionResampling_ : ITK_adapter)
  (VTKProbeFilterResampling_ : probe_adapter)
  (VTKPointInterpolatorResampling_ : point_adapter)
  (inputImage : Pointer)
  (size : SizeType) (spacing : SpacingType) (origin : PointType)
  (direction : DirectionType)
  (methodString : string)
  (CLPProcessInformation : Pointer) : Function :=
  body (
    let method := method_of methodString in

    match method with
    | ITK_NEAREST_NEIGHBOR
    | ITK_LINEAR
    | ITK_WINDOWED_SINC =>
        rc <- call (ITKScanConversionResampling_ inputImage
                      size
                      spacing
                      origin
                      direction
                      method
                      CLPProcessInformation) ;;
        return_ rc
    | VTK_PROBE_FILTER =>
        rc <- call (VTKProbeFilterResampling_ inputImage
                      size
                      spacing
                      origin
                      CLPProcessInformation) ;;
        return_ rc
    | VTK_GAUSSIAN_KERNEL
    | VTK_LINEAR_KERNEL
    | VTK_SHEPARD_KERNEL
    | VTK_VORONOI_KERNEL =>
        rc <- call (VTKPointInterpolatorResampling_ inputImage
                      size
                      spacing
                      origin
                      method
                      CLPProcessInformation) ;;
        return_ rc
    | _ =>
        cerr_endl "Unknown scan conversion resampling method"
    end ;;
    return_ EXIT_FAILURE).

(** The function of the header: the body above calling the three
    adapters of the header. *)
Definition ScanConversionResampling
  : Pointer -> SizeType -> SpacingType -> PointType -> DirectionType ->
    string -> Pointer -> Function :=
  ScanConversionResampling_calling
    ITKScanConversionResampling
    VTKProbeFilterResampling
    VTKPointInterpolatorResampling.

End Header.


(* ================================================================= *)
(** ** Straight-line runs

    Every path through an adapter is a fixed sequence of events followed
    by a [return].  [straight] executes such a sequence with the
    statements above; the adapters are shown equal to it below. *)

Section Straight.

Variable raises : Call -> bool.

Local Open Scope stmt_scope.

Definition perform (e : Event) : Stmt unit :=
  match e with
  | Toolkit c => toolkit raises c
  | Print line => cerr_endl line
  | Assign_outputImage p => assign_outputImage p
  end.

Fixpoint straight (events : list Event) (rc : Z) : Stmt Empty_set :=
  match events with
  | [] => return_ rc
  | e :: events' => perform e ;; straight events' rc
  end.

(** The world after an event that completed. *)
Definition effect (w : World) (e : Event) : World :=
  match e with
  | Toolkit c => record (Toolkit c) w
  | Print line =>
      {| trace := trace w ++ [Print line]; cerr := cerr w ++ [line];
         outputImage := outputImage w |}
  | Assign_outputImage p =>
      {| trace := trace w ++ [Assign_outputImage p]; cerr := cerr w;
         outputImage := p |}
  end.

Definition replay (events : list Event) (w : World) : World :=
  fold_left effect events w.

(** No toolkit call of [events] raises. *)
Definition quiet (events : list Event) : Prop :=
  forall c, In (Toolkit c) events -> raises c = false.

End Straight.

(** The lines printed by a sequence of events. *)
Fixpoint printed (events : list Event) : list string :=
  match events with
  | [] => []
  | Print line :: events' => line :: printed events'
  | _ :: events' => printed events'
  end.

(** The pointer a sequence of events leaves in [outputImage]. *)
Fixpoint assigned (events : list Event) (held : Pointer) : Pointer :=
  match events with
  | [] => held
  | Assign_outputImage p :: events' => assigned events' p
  | _ :: events' => assigned events' held
  end.

(** Every [b] in [t] has an [a] somewhere before it. *)
Definition precedes (a b : Event) (t : list Event) : Prop :=
  forall pre post, t = pre ++ b :: post -> In a pre.

(** A function started with an empty log. *)
Definition run (f : Function) (held : Pointer) : Result * World :=
  f (entry held).

Definition result (f : Function) (held : Pointer) : Result :=
  fst (run f held).

Definition events (f : Function) (held : Pointer) : list Event :=
  trace (snd (run f held)).

(** The toolkit in which no call raises. *)
Definition never : Call -> bool := fun _ => false.

(* ----------------------------------------------------------------- *)
(** *** The adapters as event sequences *)

Section Chains.

Variables (inputImage : Pointer) (size : SizeType) (spacing : SpacingType)
  (origin : PointType) (direction : DirectionType)
  (CLPProcessInformation : Pointer).

Definition is_ITK_method (method : Z) : bool :=
  (method =? ITK_NEAREST_NEIGHBOR) || (method =? ITK_LINEAR)
  || (method =? ITK_WINDOWED_SINC).

Definition is_kernel_method (method : Z) : bool :=
  (method =? VTK_GAUSSIAN_KERNEL) || (method =? VTK_LINEAR_KERNEL)
  || (method =? VTK_SHEPARD_KERNEL) || (method =? VTK_VORONOI_KERNEL).

(** The interpolator class of an ITK method. *)
Definition interpolator_class (method : Z) : Class :=
  if method =? ITK_NEAREST_NEIGHBOR then NearestNeighborInterpolateImageFunction
  else if method =? ITK_LINEAR then LinearInterpolateImageFunction
  else WindowedSincInterpolateImageFunction_Lanczos 3.

Definition resampler_setup : list Event :=
  [ Toolkit (New resampler ResampleImageFilter);
    Toolkit (Invoke resampler (SetInput inputImage));
    Toolkit (Invoke resampler (SetSize size));
    Toolkit (Invoke resampler (SetOutputSpacing spacing));
    Toolkit (Invoke resampler (SetOutputOrigin origin));
    Toolkit (Invoke resampler (SetOutputDirection direction)) ].

Definition ITK_chain (method : Z) : list Event :=
  resampler_setup ++
  (if is_ITK_method method then
     [ Toolkit (New interpolator (interpolator_class method));
       Toolkit (Invoke resampler (SetInterpolator interpolator));
       Toolkit (New watchResampler
                  (PluginFilterWatcher resampler "Resample Image"
                     CLPProcessInformation));
       Toolkit (Invoke resampler Update);
       Assign_outputImage (GetOutput resampler) ]
   else
     [ Print "Unsupported resampling method in ITKScanConversionResampling" ]).

Definition ITK_rc (method : Z) : Z :=
  if is_ITK_method method then EXIT_SUCCESS else EXIT_FAILURE.

Definition conversion_steps : list Event :=
  [ Toolkit (New conversionFilter SpecialCoordinatesImageToVTKStructuredGridFilter);
    Toolkit (Invoke conversionFilter (SetInput inputImage));
    Toolkit (New watchConversion
               (PluginFilterWatcher conversionFilter
                  "Convert to vtkStructuredGrid" CLPProcessInformation));
    Toolkit (Invoke conversionFilter Update) ].

Definition grid_setup : list Event :=
  [ Toolkit (New grid vtkImageData);
    Toolkit (Invoke grid (SetDimensions (as_int (elem0 size))
                            (as_int (elem1 size)) (as_int (elem2 size))));
    Toolkit (Invoke grid (SetSpacing (elem0 spacing) (elem1 spacing) (elem2 spacing)));
    Toolkit (Invoke grid (SetOrigin (elem0 origin) (elem1 origin) (elem2 origin)));
    Toolkit (Invoke grid ComputeBounds) ].

Definition probe_chain : list Event :=
  conversion_steps ++ grid_setup ++
  [ Toolkit (New probeFilter vtkProbeFilter);
    Toolkit (Invoke probeFilter (SetSourceData (GetOutput conversionFilter)));
    Toolkit (Invoke probeFilter (SetInputData grid));
    Toolkit (Invoke probeFilter Update);
    Toolkit (New vtkToITKFilter (VTKImageToImageFilter OutputPixel));
    Toolkit (Invoke vtkToITKFilter (SetInput (GetImageDataOutput probeFilter)));
    Toolkit (Invoke vtkToITKFilter Update);
    Toolkit (New output (Image OutputPixel));
    Toolkit (Invoke output
               (SetRegions (GetLargestPossibleRegion (GetOutput vtkToITKFilter))));
    Toolkit (Invoke output Allocate);
    Toolkit (ImageAlgorithm_Copy (GetOutput vtkToITKFilter) output
               (GetLargestPossibleRegion output)
               (GetLargestPossibleRegion output));
    Assign_outputImage output ].

(** The running maximum of lines 214-218, seeded with [0.0]. *)
Definition maxSpacing : double :=
  std_max (std_max (std_max 0%float (elem0 spacing)) (elem1 spacing))
    (elem2 spacing).

(** Line 219. *)
Definition radius : double := PrimFloat.mul 1.1%float maxSpacing.

Definition pointInterpolator_setup : list Event :=
  [ Toolkit (Invoke (GetOutput conversionFilter) ComputeBounds) ]
  ++ grid_setup ++
  [ Toolkit (New scalars vtkFloatArray);
    Toolkit (Invoke scalars (SetName "Scalars"));
    Toolkit (Invoke scalars
               (AllocateValues
                  (as_vtkIdType
                     (mul64 (mul64 (elem0 size) (elem1 size)) (elem2 size)))));
    Toolkit (Invoke (GetPointData grid) (SetScalars scalars));
    Toolkit (New pointInterpolator vtkPointInterpolator);
    Toolkit (Invoke pointInterpolator (SetSourceData (GetOutput conversionFilter)));
    Toolkit (Invoke pointInterpolator (SetInputData grid));
    Toolkit (Invoke pointInterpolator (SetPassPointArrays false));
    Toolkit (Invoke pointInterpolator SetNullPointsStrategyToNullValue);
    Toolkit (Invoke pointInterpolator (SetNullValue 0%float)) ].

(** The kernel object of a kernel method, and its class. *)
Definition kernel_object (method : Z) : Object :=
  if method =? VTK_GAUSSIAN_KERNEL then gaussianKernel
  else if method =? VTK_LINEAR_KERNEL then linearKernel
  else if method =? VTK_SHEPARD_KERNEL then shepardKernel
  else voronoiKernel.

Definition kernel_class (method : Z) : Class :=
  if method =? VTK_GAUSSIAN_KERNEL then vtkGaussianKernel
  else if method =? VTK_LINEAR_KERNEL then vtkLinearKernel
  else if method =? VTK_SHEPARD_KERNEL then vtkShepardKernel
  else vtkVoronoiKernel.

Definition kernel_setup (method : Z) : list Event :=
  Toolkit (New (kernel_object method) (kernel_class method)) ::
  (if method =? VTK_VORONOI_KERNEL then []
   else
     [ Toolkit (Invoke (kernel_object method) SetKernelFootprintToRadius);
       Toolkit (Invoke (kernel_object method) (SetRadius radius)) ]).

(** Lines 283-298. *)
Definition cast_and_copy : list Event :=
  [ Toolkit (New caster (CastImageFilter FloatPixel OutputPixel));
    Toolkit (Invoke caster (SetInput (GetOutput vtkToITKFilter)));
    Toolkit (Invoke caster Update);
    Toolkit (New output (Image OutputPixel));
    Toolkit (Invoke output
               (SetRegions (GetLargestPossibleRegion (GetOutput caster))));
    Toolkit (Invoke output (CopyInformation (GetOutput caster)));
    Toolkit (Invoke output Allocate);
    Toolkit (ImageAlgorithm_Copy (GetOutput caster) output
               (GetLargestPossibleRegion output)
               (GetLargestPossibleRegion output));
    Assign_outputImage output ].

(** Lines 186-281 for a kernel method. *)
Definition interpolation_steps (method : Z) : list Event :=
  conversion_steps ++ pointInterpolator_setup ++ kernel_setup method ++
  [ Toolkit (New vtkToITKFilter (VTKImageToImageFilter FloatPixel));
    Toolkit (Invoke pointInterpolator (SetKernel (kernel_object method)));
    Toolkit (Invoke pointInterpolator Update);
    Toolkit (Invoke vtkToITKFilter (SetInput (GetImageDataOutput pointInterpolator)));
    Toolkit (Invoke vtkToITKFilter Update);
    Toolkit (Invoke (kernel_object method) Delete) ].

Definition point_chain (method : Z) : list Event :=
  if is_kernel_method method then
    interpolation_steps method ++ cast_and_copy
  else
    conversion_steps ++ pointInterpolator_setup ++
    [ Print ("Unexpected interpolation kernel: " ++ decimal method)%string ].

Definition point_rc (method : Z) : Z :=
  if is_kernel_method method then EXIT_SUCCESS else EXIT_FAILURE.

End Chains.


(* ================================================================= *)
(** ** Properties of runs *)

(** [b] occurs in [t] only as its last event. *)
Definition final (b : Event) (t : list Event) : Prop :=
  forall pre post, t = pre ++ b :: post -> post = [].

(* ----------------------------------------------------------------- *)
(** *** Dispatch *)

(** The eight method names of lines 319-350. *)
Definition ITK_names : list string :=
  [ "ITKNearestNeighbor"; "ITKLinear"; "ITKWindowedSinc" ].

Definition kernel_names : list string :=
  [ "VTKGaussianKernel"; "VTKLinearKernel"; "VTKShepardKernel";
    "VTKVoronoiKernel" ].

Definition recognized_names : list string :=
  ITK_names ++ [ "VTKProbeFilter" ] ++ kernel_names.

(** The adapter that serves a method: the ITK adapter for the three ITK
    methods, the probe-filter adapter for [VTK_PROBE_FILTER], the
    point-interpolator adapter for the kernel methods. *)
Definition adapter_for (raises : Call -> bool)
  (inputImage : Pointer) (size : SizeType) (spacing : SpacingType)
  (origin : PointType) (direction : DirectionType)
  (method : ScanConversionResamplingMethod)
  (CLPProcessInformation : Pointer) : Function :=
  if is_ITK_method method then
    ITKScanConversionResampling raises inputImage size spacing origin
      direction method CLPProcessInformation
  else if method =? VTK_PROBE_FILTER then
    VTKProbeFilterResampling raises inputImage size spacing origin
      CLPProcessInformation
  else
    VTKPointInterpolatorResampling raises inputImage size spacing origin
      method CLPProcessInformation.

(** The adapter that serves a method name, with the enumerator the
    dispatcher computes for the name. *)
Definition adapter_named (raises : Call -> bool)
  (inputImage : Pointer) (size : SizeType) (spacing : SpacingType)
  (origin : PointType) (direction : DirectionType)
  (methodString : string)
  (CLPProcessInformation : Pointer) : Function :=
  if existsb (String.eqb methodString) ITK_names then
    ITKScanConversionResampling raises inputImage size spacing origin
      direction (method_of methodString) CLPProcessInformation
  else if String.eqb methodString "VTKProbeFilter" then
    VTKProbeFilterResampling raises inputImage size spacing origin
      CLPProcessInformation
  else
    VTKPointInterpolatorResampling raises inputImage size spacing origin
      (method_of methodString) CLPProcessInformation.

(** The callee that serves a method name among three functions of the
    adapters' signatures, with the arguments of lines 357-387. *)
Definition callee_named
  (ITK_ : ITK_adapter) (probe_ : probe_adapter) (point_ : point_adapter)
  (inputImage : Pointer) (size : SizeType) (spacing : SpacingType)
  (origin : PointType) (direction : DirectionType)
  (methodString : string)
  (CLPProcessInformation : Pointer) : Function :=
  if existsb (String.eqb methodString) ITK_names then
    ITK_ inputImage size spacing origin direction (method_of methodString)
      CLPProcessInformation
  else if String.eqb methodString "VTKProbeFilter" then
    probe_ inputImage size spacing origin CLPProcessInformation
  else
    point_ inputImage size spacing origin (method_of methodString)
      CLPProcessInformation.

(** The fallback of lines 389-392: an error is printed, [EXIT_FAILURE] is
    returned, no toolkit call is made and [outputImage] keeps its value. *)
Definition takes_fallback (f : Function) (held : Pointer) : Prop :=
  result f held = Returned EXIT_FAILURE /\
  In (Print "Unknown scan conversion resampling method") (events f held) /\
  (forall c, ~ In (Toolkit c) (events f held)) /\
  outputImage (snd (run f held)) = held.

(* ----------------------------------------------------------------- *)
(** *** Kernel radius *)

(** "The maximum component of the spacing", and 1.1 times it. *)
Definition max_component (spacing : SpacingType) : double :=
  std_max (std_max (elem0 spacing) (elem1 spacing)) (elem2 spacing).

Definition scaled_max_component (spacing : SpacingType) : double :=
  PrimFloat.mul 1.1%float (max_component spacing).

(** The kernel of [method] is given the radius [r]. *)
Definition kernel_radius_is (method : Z) (r : double) (t : list Event) : Prop :=
  In (Toolkit (Invoke (kernel_object method) (SetRadius r))) t.

(* ----------------------------------------------------------------- *)
(** *** Geometry *)

(** Events that hand a geometry descriptor to a toolkit object. *)
Definition sets_size (size : SizeType) (e : Event) : Prop :=
  e = Toolkit (Invoke resampler (SetSize size)) \/
  e = Toolkit (Invoke grid
                 (SetDimensions (as_int (elem0 size)) (as_int (elem1 size))
                    (as_int (elem2 size)))).

Definition sets_spacing (spacing : SpacingType) (e : Event) : Prop :=
  e = Toolkit (Invoke resampler (SetOutputSpacing spacing)) \/
  e = Toolkit (Invoke grid
                 (SetSpacing (elem0 spacing) (elem1 spacing) (elem2 spacing))).

Definition sets_origin (origin : PointType) (e : Event) : Prop :=
  e = Toolkit (Invoke resampler (SetOutputOrigin origin)) \/
  e = Toolkit (Invoke grid
                 (SetOrigin (elem0 origin) (elem1 origin) (elem2 origin))).

Definition sets_direction (direction : DirectionType) (e : Event) : Prop :=
  exists p, e = Toolkit (Invoke p (SetOutputDirection direction)).

(** The update that runs the resampling of a method. *)
Definition resampling_update (method : Z) : Event :=
  Toolkit
    (Invoke
       (Local (if is_ITK_method method then resampler
               else if method =? VTK_PROBE_FILTER then probeFilter
               else pointInterpolator))
       Update).

(** The calls that hand a geometry descriptor over. *)
Definition is_geometry_call (m : Method) : bool :=
  match m with
  | SetSize _ | SetOutputSpacing _ | SetOutputOrigin _ | SetOutputDirection _
  | SetDimensions _ _ _ | SetSpacing _ _ _ | SetOrigin _ _ _ => true
  | _ => false
  end.

(** The geometry calls of the ITK adapter, on the resampler, and of the
    two VTK adapters, on the [vtkImageData] grid. *)
Definition resampler_geometry (size : SizeType) (spacing : SpacingType)
  (origin : PointType) (direction : DirectionType) : list Event :=
  [ Toolkit (Invoke resampler (SetSize size));
    Toolkit (Invoke resampler (SetOutputSpacing spacing));
    Toolkit (Invoke resampler (SetOutputOrigin origin));
    Toolkit (Invoke resampler (SetOutputDirection direction)) ].

Definition grid_geometry (size : SizeType) (spacing : SpacingType)
  (origin : PointType) : list Event :=
  [ Toolkit (Invoke grid (SetDimensions (as_int (elem0 size))
                            (as_int (elem1 size)) (as_int (elem2 size))));
    Toolkit (Invoke grid (SetSpacing (elem0 spacing) (elem1 spacing)
                            (elem2 spacing)));
    Toolkit (Invoke grid (SetOrigin (elem0 origin) (elem1 origin)
                            (elem2 origin))) ].

(** A size component that an [int] holds. *)
Definition fits_int (z : SizeValueType) : Prop := 0 <= z < 2 ^ 31.

(** Some event of kind [sets] happened before every [invoke]. *)
Definition configured_before (invoke : Event) (sets : Event -> Prop)
  (t : list Event) : Prop :=
  exists e, sets e /\ In e t /\ precedes e invoke t.

(** The resampling ran, and before it size, spacing, origin and direction
    were all handed over. *)
Definition full_geometry_configured
  (size : SizeType) (spacing : SpacingType) (origin : PointType)
  (direction : DirectionType) (method : Z) (t : list Event) : Prop :=
  let invoke := resampling_update method in
  In invoke t /\
  configured_before invoke (sets_size size) t /\
  configured_before invoke (sets_spacing spacing) t /\
  configured_before invoke (sets_origin origin) t /\
  configured_before invoke (sets_direction direction) t.

(* ----------------------------------------------------------------- *)
(** *** Concrete inputs *)

(** A 128 x 128 x 64 grid of 0.5 x 0.5 x 1.0 voxels at the origin, axes
    aligned; the input image at address 1, the process information at
    address 2, and [outputImage] referring to address 0 at entry. *)
Definition example_size : SizeType := mkFixedArray 128 128 64.
Definition example_spacing : SpacingType :=
  mkFixedArray 0.5%float 0.5%float 1%float.
Definition example_origin : PointType := mkFixedArray 0%float 0%float 0%float.
Definition identity_direction : DirectionType :=
  mkFixedArray (mkFixedArray 1%float 0%float 0%float)
               (mkFixedArray 0%float 1%float 0%float)
               (mkFixedArray 0%float 0%float 1%float).

(** A spacing with no positive component. *)
Definition negative_spacing : SpacingType :=
  mkFixedArray (-1)%float (-1)%float (-1)%float.

Definition example_dispatch (methodString : string) : Function :=
  ScanConversionResampling never (Held 1) example_size example_spacing
    example_origin identity_direction methodString (Held 2).

(** Callees that make no toolkit call and return a code of their own:
    7 from the probe-filter callee, the method number plus 10 or 20 from
    the other two. *)
Definition returning (rc : Z) : Function := fun w => (Returned rc, w).

Definition example_ITK_callee : ITK_adapter :=
  fun _ _ _ _ _ method _ => returning (10 + method).
Definition example_probe_callee : probe_adapter :=
  fun _ _ _ _ _ => returning 7.
Definition example_point_callee : point_adapter :=
  fun _ _ _ _ method _ => returning (20 + method).

(** The dispatcher calling them. *)
Definition example_forwarding (methodString : string) : Function :=
  ScanConversionResampling_calling example_ITK_callee example_probe_callee
    example_point_callee (Held 1) example_size example_spacing example_origin
    identity_direction methodString (Held 2).

(** A grid of 2^21 x 2^21 x 2^21 voxels: 2^63 in all. *)
Definition huge_size : SizeType := mkFixedArray 2097152 2097152 2097152.

(** The ITK adapter called with a method that is not its own. *)
Definition example_ITK_misuse : Function :=
  ITKScanConversionResampling never (Held 1) example_size example_spacing
    example_origin identity_direction VTK_PROBE_FILTER (Held 2).

(** The events of the Gaussian kernel method on [negative_spacing]. *)
Definition negative_spacing_events : list Event :=
  events
    (VTKPointInterpolatorResampling never (Held 1) example_size
       negative_spacing example_origin VTK_GAUSSIAN_KERNEL (Held 2))
    (Held 0).

(** The toolkit in which the update of the point interpolator raises, and
    nothing else does. *)
Definition interpolation_fails : Call -> bool :=
  fun c =>
    match c with
    | Invoke (Local pointInterpolator) Update => true
    | _ => false
    end.

(** The Shepard kernel method on the example grid, with that toolkit. *)
Definition example_failing_interpolation : Function :=
  VTKPointInterpolatorResampling interpolation_fails (Held 1) example_size
    example_spacing example_origin VTK_SHEPARD_KERNEL (Held 2).

(** The point-interpolator adapter called with a method that is not its
    own. *)
Definition example_point_misuse : Function :=
  VTKPointInterpolatorResampling never (Held 1) example_size example_spacing
    example_origin ITK_LINEAR (Held 2).

(* ----------------------------------------------------------------- *)
(** *** Occurrences *)

(** [b] occurs in [t] at most once. *)
Definition at_most_once (b : Event) (t : list Event) : Prop :=
  forall pre post, t = pre ++ b :: post -> ~ In b pre /\ ~ In b post.

(** The toolkit calls of a sequence of events. *)
Definition only_calls_of (chain t : list Event) : Prop :=
  forall c, In (Toolkit c) t -> In (Toolkit c) chain.

(* ----------------------------------------------------------------- *)
(** *** Signs of binary64 values *)

(** A zero of either sign, a positive finite value or plus infinity. *)
Definition not_negative (x : spec_float) : Prop :=
  match x with
  | S754_zero _ | S754_finite false _ _ | S754_infinity false => True
  | _ => False
  end.

(* ================================================================= *)
(** ** Tactics for lists written out *)

Arguments radius _ : simpl never.
Arguments mul64 _ _ : simpl never.
Arguments as_int _ : simpl never.
Arguments as_vtkIdType _ : simpl never.

(** Decide [In a l] on a list written out. *)
Ltac in_list :=
  simpl; solve [ repeat first [ left; reflexivity | right ] ].

(** Prove [precedes a b l] on a list written out, by walking along it. *)
Ltac walk_precedes :=
  let pre := fresh "pre" in
  let post := fresh "post" in
  let H := fresh "H" in
  intros pre post H; simpl in H;
  repeat (destruct pre as [|? pre];
          [ first [ discriminate H | in_list ]
          | first [ discriminate H
                  | simpl in H; injection H as ? H; subst ] ]).

(** Prove [final b l] on a list written out. *)
Ltac walk_final :=
  let pre := fresh "pre" in
  let post := fresh "post" in
  let H := fresh "H" in
  intros pre post H; simpl in H;
  repeat (destruct pre as [|? pre];
          [ first [ discriminate H | injection H as _ <-; reflexivity ]
          | first [ discriminate H
                  | simpl in H; injection H as ? H; subst ] ]).

(** Refute [In a l] on a list written out. *)
Ltac not_in_list :=
  let H := fresh "H" in
  simpl; intro H;
  repeat (destruct H as [H|H]; [ discriminate H | ]); exact H.

(** From [In a l] with [l] written out, keep the entries that can be [a]. *)
Ltac which_in H :=
  simpl in H;
  repeat (destruct H as [H|H]; [ try discriminate H | ]);
  [ .. | destruct H ].

(** The cases of a [switch] on a method: each enumerator 0..7, and the
    values outside. *)
Ltac method_leaves m :=
  destruct m as [|m|m];
  [ | destruct m as [[m|m|]|[m|m|]|]; try destruct m as [m|m|] | ].

(* ================================================================= *)
(** ** Facts about straight-line runs *)

Lemma trace_replay (evs : list Event) (w : World) :
  trace (replay evs w) = trace w ++ evs.
Proof.
  revert w; induction evs as [|e evs IH]; intro w; simpl.
  - now rewrite app_nil_r.
  - unfold replay in IH. rewrite IH.
    destruct e; simpl; now rewrite <- app_assoc.
Qed.

Lemma cerr_replay (evs : list Event) (w : World) :
  cerr (replay evs w) = cerr w ++ printed evs.
Proof.
  revert w; induction evs as [|e evs IH]; intro w; simpl.
  - now rewrite app_nil_r.
  - unfold replay in IH. rewrite IH.
    destruct e; simpl; trivial. now rewrite <- app_assoc.
Qed.

Lemma outputImage_replay (evs : list Event) (w : World) :
  outputImage (replay evs w) = assigned evs (outputImage w).
Proof.
  revert w; induction evs as [|e evs IH]; intro w; simpl; trivial.
  unfold replay in IH. rewrite IH. now destruct e.
Qed.

Lemma replay_snoc (evs : list Event) (e : Event) (w : World) :
  replay (evs ++ [e]) w = effect (replay evs w) e.
Proof. unfold replay. now rewrite fold_left_app. Qed.

Section StraightFacts.

Variable raises : Call -> bool.

Lemma quiet_cons (e : Event) (evs : list Event) :
  quiet raises evs ->
  (forall c, e = Toolkit c -> raises c = false) ->
  quiet raises (e :: evs).
Proof.
  intros Hq He c [Hc | Hc]; [now apply He | now apply Hq].
Qed.

(** A straight-line run either completes every event and returns, or
    stops at the first toolkit call that raises. *)
Lemma straight_cases (evs : list Event) (rc : Z) (w : World) :
  (quiet raises evs /\
   body (straight raises evs rc) w = (Returned rc, replay evs w))
  \/
  (exists pre c post,
      evs = pre ++ Toolkit c :: post /\ quiet raises pre /\
      raises c = true /\
      body (straight raises evs rc) w
      = (Raised c, replay (pre ++ [Toolkit c]) w)).
Proof.
  revert w; induction evs as [|e evs IH]; intro w.
  - left. split; [intros c []|reflexivity].
  - destruct e as [c|line|p].
    + destruct (raises c) eqn:Hc.
      * right. exists [], c, evs. repeat split; trivial.
        -- intros c' [].
        -- unfold body; simpl. unfold seq, toolkit. now rewrite Hc.
      * assert (Hrun : body (straight raises (Toolkit c :: evs) rc) w
                       = body (straight raises evs rc) (record (Toolkit c) w)).
        { unfold body; simpl. unfold seq at 1, toolkit. now rewrite Hc. }
        rewrite Hrun.
        destruct (IH (record (Toolkit c) w))
          as [[Hq Hr] | (pre & c' & post & -> & Hq & Hc' & Hr)].
        -- left. split; [|exact Hr].
           apply quiet_cons; trivial. now intros c' [= <-].
        -- right. exists (Toolkit c :: pre), c', post.
           repeat split; trivial.
           apply quiet_cons; trivial. now intros c'' [= <-].
    + destruct (IH (effect w (Print line)))
        as [[Hq Hr] | (pre & c' & post & -> & Hq & Hc' & Hr)].
      * left. split; [|exact Hr].
        apply quiet_cons; trivial. intros c' [=].
      * right. exists (Print line :: pre), c', post.
        repeat split; trivial.
        apply quiet_cons; trivial. intros c'' [=].
    + destruct (IH (effect w (Assign_outputImage p)))
        as [[Hq Hr] | (pre & c' & post & -> & Hq & Hc' & Hr)].
      * left. split; [|exact Hr].
        apply quiet_cons; trivial. intros c' [=].
      * right. exists (Assign_outputImage p :: pre), c', post.
        repeat split; trivial.
        apply quiet_cons; trivial. intros c'' [=].
Qed.

(** Sequencing is associative, and a toolkit call followed by equal
    continuations gives equal runs. *)
Lemma body_seq_assoc {A B : Type} (a : Stmt A) (f : A -> Stmt B)
  (g : B -> Stmt Empty_set) (w : World) :
  body (seq (seq a f) g) w = body (seq a (fun x => seq (f x) g)) w.
Proof. unfold body, seq. now destruct (a w) as [[] ?]. Qed.

Lemma body_toolkit_congr (c : Call) (k1 k2 : unit -> Stmt Empty_set)
  (w : World) :
  (forall w', body (k1 tt) w' = body (k2 tt) w') ->
  body (seq (toolkit raises c) k1) w = body (seq (toolkit raises c) k2) w.
Proof.
  intro H. unfold body, seq, toolkit in *.
  destruct (raises c); [reflexivity | apply H].
Qed.

Lemma body_defined {A : Type} (a : A) (k : A -> Stmt Empty_set) (w : World) :
  body (seq (defined (Some a)) k) w = body (k a) w.
Proof. reflexivity. Qed.

Lemma body_next {A : Type} (a : A) (k : A -> Stmt Empty_set) (w : World) :
  body (seq (next a) k) w = body (k a) w.
Proof. reflexivity. Qed.

(** The loop of lines 214-218 reads components 0, 1 and 2. *)
Lemma maxSpacing_loop_ImageDimension (spacing : SpacingType) :
  maxSpacing_loop spacing ImageDimension 0 0%float = Some (maxSpacing spacing).
Proof. reflexivity. Qed.

Section Adapters.

Variables (inputImage : Pointer) (size : SizeType) (spacing : SpacingType)
  (origin : PointType) (direction : DirectionType)
  (CLPProcessInformation : Pointer).

Ltac walk :=
  repeat first
    [ apply body_toolkit_congr; intros ?
    | rewrite body_seq_assoc
    | rewrite body_next
    | rewrite maxSpacing_loop_ImageDimension, body_defined
    | reflexivity ].

Lemma ITK_straight (method : Z) (w : World) :
  ITKScanConversionResampling raises inputImage size spacing origin
    direction method CLPProcessInformation w
  = body (straight raises
            (ITK_chain inputImage size spacing origin direction
               CLPProcessInformation method)
            (ITK_rc method)) w.
Proof.
  unfold ITKScanConversionResampling.
  method_leaves method; walk.
Qed.

Lemma probe_straight (w : World) :
  VTKProbeFilterResampling raises inputImage size spacing origin
    CLPProcessInformation w
  = body (straight raises
            (probe_chain inputImage size spacing origin CLPProcessInformation)
            EXIT_SUCCESS) w.
Proof. reflexivity. Qed.

Lemma point_straight (method : Z) (w : World) :
  VTKPointInterpolatorResampling raises inputImage size spacing origin
    method CLPProcessInformation w
  = body (straight raises
            (point_chain inputImage size spacing origin
               CLPProcessInformation method)
            (point_rc method)) w.
Proof.
  unfold VTKPointInterpolatorResampling.
  method_leaves method; walk.
Qed.

End Adapters.

End StraightFacts.

(* ----------------------------------------------------------------- *)
(** *** Runs from the entry world *)

Section Runs.

Variable raises : Call -> bool.

(** The two ways a straight-line run from [entry held] can end. *)
Lemma straight_run (evs : list Event) (rc : Z) (held : Pointer) :
  let f := body (straight raises evs rc) in
  (quiet raises evs /\ result f held = Returned rc /\
   events f held = evs /\
   cerr (snd (run f held)) = printed evs /\
   outputImage (snd (run f held)) = assigned evs held)
  \/
  (exists pre c post,
      evs = pre ++ Toolkit c :: post /\ quiet raises pre /\
      raises c = true /\ result f held = Raised c /\
      events f held = pre ++ [Toolkit c] /\
      cerr (snd (run f held)) = printed pre /\
      outputImage (snd (run f held)) = assigned pre held).
Proof.
  intro f. unfold result, events, run, f.
  destruct (straight_cases raises evs rc (entry held))
    as [[Hq ->] | (pre & c & post & He & Hq & Hc & ->)]; simpl.
  - left. rewrite trace_replay, cerr_replay, outputImage_replay. now simpl.
  - right. exists pre, c, post.
    rewrite replay_snoc; simpl.
    rewrite trace_replay, cerr_replay, outputImage_replay. now simpl.
Qed.

End Runs.

(* ----------------------------------------------------------------- *)
(** *** Order of events *)

Lemma precedes_prefix (a b : Event) (t1 t2 : list Event) :
  precedes a b (t1 ++ t2) -> precedes a b t1.
Proof.
  intros H pre post ->. apply (H pre (post ++ t2)).
  now rewrite <- app_assoc.
Qed.

Lemma precedes_stopped (a b : Event) (pre post : list Event) (c : Call) :
  precedes a b (pre ++ Toolkit c :: post) ->
  precedes a b (pre ++ [Toolkit c]).
Proof.
  intro H. apply precedes_prefix with (t2 := post).
  now rewrite <- app_assoc.
Qed.

Lemma In_stopped (e : Event) (pre post : list Event) (c : Call) :
  In e (pre ++ [Toolkit c]) -> In e (pre ++ Toolkit c :: post).
Proof.
  rewrite !in_app_iff. simpl. tauto.
Qed.

Lemma precedes_In (a b : Event) (t : list Event) :
  precedes a b t -> In b t -> In a t.
Proof.
  intros H Hb. destruct (in_split _ _ Hb) as (pre & post & ->).
  apply in_or_app. left. now apply (H pre post).
Qed.

(** An event that has another one after it in [pre ++ [e]] lies in [pre]. *)
Lemma precedes_In_pre (a b e : Event) (pre : list Event) :
  precedes a b (pre ++ [e]) -> In b pre -> In a pre.
Proof.
  intros H Hb. destruct (in_split _ _ Hb) as (l1 & l2 & ->).
  apply in_or_app. left. apply (H l1 (l2 ++ [e])).
  now rewrite <- app_assoc.
Qed.

Lemma assigned_unchanged (evs : list Event) (held : Pointer) :
  (forall p, ~ In (Assign_outputImage p) evs) -> assigned evs held = held.
Proof.
  revert held; induction evs as [|e evs IH]; intros held H; simpl; trivial.
  destruct e as [c|line|p].
  - apply IH. intros p Hp. apply (H p). now right.
  - apply IH. intros p Hp. apply (H p). now right.
  - exfalso. apply (H p). now left.
Qed.

(** When assignments are final in a sequence, a run that stops at a
    toolkit call has assigned nothing. *)
Lemma stopped_before_final (pre post : list Event) (c : Call) :
  (forall p, final (Assign_outputImage p) (pre ++ Toolkit c :: post)) ->
  forall p, ~ In (Assign_outputImage p) pre.
Proof.
  intros H p Hp. destruct (in_split _ _ Hp) as (l1 & l2 & ->).
  specialize (H p l1 (l2 ++ Toolkit c :: post)).
  rewrite <- app_assoc in H. specialize (H eq_refl).
  now destruct l2.
Qed.

(* ----------------------------------------------------------------- *)
(** *** Functions that are straight-line runs *)

Lemma printed_snoc_toolkit (pre : list Event) (c : Call) :
  printed (pre ++ [Toolkit c]) = printed pre.
Proof.
  induction pre as [|e pre IH]; simpl; trivial.
  destruct e; simpl; now rewrite IH.
Qed.

Lemma prefix_of_snoc {A : Type} (l1 l2 pre : list A) (e : A) :
  l1 ++ l2 = pre ++ [e] -> l2 <> [] -> exists l3, pre = l1 ++ l3.
Proof.
  revert pre; induction l1 as [|a l1 IH]; intros pre H Hne.
  - now exists pre.
  - destruct pre as [|a' pre]; simpl in H.
    + injection H as _ H. destruct l1, l2; try discriminate H.
      now elim Hne.
    + injection H as <- H. destruct (IH pre H Hne) as [l3 ->].
      now exists l3.
Qed.

Section ChainRuns.

Variable raises : Call -> bool.
Variables (f : Function) (chain : list Event) (rc : Z) (held : Pointer).

Hypothesis f_straight :
  run f held = run (body (straight raises chain rc)) held.

Lemma chain_cases :
  (quiet raises chain /\ result f held = Returned rc /\
   events f held = chain /\
   outputImage (snd (run f held)) = assigned chain held)
  \/
  (exists pre c post,
      chain = pre ++ Toolkit c :: post /\ quiet raises pre /\
      raises c = true /\ result f held = Raised c /\
      events f held = pre ++ [Toolkit c] /\
      outputImage (snd (run f held)) = assigned pre held).
Proof.
  unfold result, events. rewrite f_straight.
  destruct (straight_run raises chain rc held)
    as [(Hq & Hr & He & _ & Ho)
       | (pre & c & post & Hc & Hq & Hraise & Hr & He & _ & Ho)].
  - left. now repeat split.
  - right. exists pre, c, post. now repeat split.
Qed.

(** Only events of the chain occur, in the order of the chain. *)
Lemma chain_In (e : Event) : In e (events f held) -> In e chain.
Proof.
  destruct chain_cases
    as [(_ & _ & -> & _) | (pre & c & post & -> & _ & _ & _ & -> & _)];
    [trivial | apply In_stopped].
Qed.

Lemma chain_precedes (a b : Event) :
  precedes a b chain -> precedes a b (events f held).
Proof.
  destruct chain_cases
    as [(_ & _ & -> & _) | (pre & c & post & -> & _ & _ & _ & -> & _)];
    [trivial | apply precedes_stopped].
Qed.

Lemma chain_final (b : Event) : final b chain -> final b (events f held).
Proof.
  destruct chain_cases
    as [(_ & _ & -> & _) | (pre & c & post & -> & _ & _ & _ & -> & _)];
    [trivial|].
  intros H l1 l2 He.
  assert (Hb : l2 ++ post = []).
  { apply (H l1). change (Toolkit c :: post) with ([Toolkit c] ++ post).
    rewrite app_assoc, He, <- app_assoc. reflexivity. }
  now destruct l2.
Qed.

(** What is printed is what the log says. *)
Lemma chain_cerr : cerr (snd (run f held)) = printed (events f held).
Proof.
  unfold events. rewrite f_straight.
  destruct (straight_run raises chain rc held)
    as [(_ & _ & He & Hp & _)
       | (pre & c & post & _ & _ & _ & _ & He & Hp & _)];
    unfold events in He; rewrite He, Hp; trivial.
  now rewrite printed_snoc_toolkit.
Qed.

(** A toolkit call that has a later event after it completed. *)
Lemma chain_completed (c : Call) (b : Event) :
  precedes (Toolkit c) b chain -> In b (events f held) -> raises c = false.
Proof.
  intros Hp Hb.
  destruct chain_cases
    as [(Hq & _ & He & _) | (pre & c' & post & Hc & Hq & _ & _ & He & _)].
  - rewrite He in Hb. apply Hq. now apply (precedes_In _ b).
  - rewrite He in Hb. rewrite Hc in Hp. apply precedes_stopped in Hp.
    apply Hq. destruct (in_split _ _ Hb) as (l1 & l2 & Hsplit).
    specialize (Hp l1 l2 Hsplit).
    destruct (prefix_of_snoc l1 (b :: l2) pre (Toolkit c')) as [l3 ->];
      [now symmetry | discriminate |].
    apply in_or_app. now left.
Qed.

(** The function returns exactly when no toolkit call raises, and then
    every event of the chain happened. *)
Lemma chain_returned (rc' : Z) :
  result f held = Returned rc' ->
  rc' = rc /\ quiet raises chain /\ events f held = chain /\
  outputImage (snd (run f held)) = assigned chain held.
Proof.
  destruct chain_cases
    as [(Hq & -> & He & Ho) | (pre & c & post & _ & _ & _ & -> & _)];
    [|discriminate].
  intros [= <-]. now repeat split.
Qed.

Lemma chain_never :
  (forall c, raises c = false) ->
  result f held = Returned rc /\ events f held = chain /\
  outputImage (snd (run f held)) = assigned chain held.
Proof.
  intro Hnever.
  destruct chain_cases
    as [(Hq & Hr & He & Ho) | (pre & c & post & _ & _ & Hc & _)];
    [now repeat split|].
  rewrite Hnever in Hc. discriminate Hc.
Qed.

Lemma chain_defined : result f held <> Undefined_behaviour.
Proof.
  destruct chain_cases
    as [(_ & -> & _) | (pre & c & post & _ & _ & _ & -> & _)]; discriminate.
Qed.

(** When the chain assigns only as its last event, [outputImage] changes
    only on a run that completes. *)
Lemma chain_outputImage :
  (forall p, final (Assign_outputImage p) chain) ->
  outputImage (snd (run f held)) = held \/
  result f held = Returned rc /\ events f held = chain /\
  outputImage (snd (run f held)) = assigned chain held.
Proof.
  intro Hlast.
  destruct chain_cases
    as [(Hq & Hr & He & Ho) | (pre & c & post & Hc & _ & _ & _ & _ & ->)].
  - right. now repeat split.
  - left. apply assigned_unchanged. rewrite Hc in Hlast.
    exact (stopped_before_final _ _ _ Hlast).
Qed.

(** When the chain assigns only as its last event, a run that assigned
    has returned. *)
Lemma chain_assigned (p : Pointer) :
  (forall q, final (Assign_outputImage q) chain) ->
  In (Assign_outputImage p) (events f held) ->
  result f held = Returned rc.
Proof.
  intros Hlast Hp.
  destruct chain_cases
    as [(_ & Hr & _) | (pre & c & post & Hc & _ & _ & _ & He & _)];
    [exact Hr|].
  exfalso. rewrite He in Hp. rewrite Hc in Hlast.
  apply in_app_or in Hp. destruct Hp as [Hp|[Hp|[]]]; [|discriminate Hp].
  exact (stopped_before_final _ _ _ Hlast p Hp).
Qed.

End ChainRuns.

(* ----------------------------------------------------------------- *)
(** *** The adapters from the entry world *)

Lemma printed_nil (t : list Event) :
  (forall line, ~ In (Print line) t) -> printed t = [].
Proof.
  induction t as [|e t IH]; intro H; simpl; trivial.
  destruct e as [c|line|p];
    try (apply IH; intros line' Hl; apply (H line'); now right).
  exfalso. apply (H line). now left.
Qed.

Section AdapterRuns.

Variable raises : Call -> bool.
Variables (inputImage : Pointer) (size : SizeType) (spacing : SpacingType)
  (origin : PointType) (direction : DirectionType)
  (CLPProcessInformation : Pointer).

Lemma ITK_run (method : Z) (held : Pointer) :
  run (ITKScanConversionResampling raises inputImage size spacing origin
         direction method CLPProcessInformation) held
  = run (body (straight raises
                 (ITK_chain inputImage size spacing origin direction
                    CLPProcessInformation method)
                 (ITK_rc method))) held.
Proof. apply ITK_straight. Qed.

Lemma probe_run (held : Pointer) :
  run (VTKProbeFilterResampling raises inputImage size spacing origin
         CLPProcessInformation) held
  = run (body (straight raises
                 (probe_chain inputImage size spacing origin
                    CLPProcessInformation)
                 EXIT_SUCCESS)) held.
Proof. apply probe_straight. Qed.

Lemma point_run (method : Z) (held : Pointer) :
  run (VTKPointInterpolatorResampling raises inputImage size spacing origin
         method CLPProcessInformation) held
  = run (body (straight raises
                 (point_chain inputImage size spacing origin
                    CLPProcessInformation method)
                 (point_rc method))) held.
Proof. apply point_straight. Qed.

(** On its own methods an adapter prints nothing and returns no
    [EXIT_FAILURE]. *)
Lemma ITK_silent (method : Z) (held : Pointer) :
  In method [ITK_NEAREST_NEIGHBOR; ITK_LINEAR; ITK_WINDOWED_SINC] ->
  let f := ITKScanConversionResampling raises inputImage size spacing origin
             direction method CLPProcessInformation in
  (forall line, ~ In (Print line) (events f held)) /\
  result f held <> Returned EXIT_FAILURE.
Proof.
  intros Hm f. split.
  - intros line Hl. apply (chain_In _ _ _ _ _ (ITK_run method held)) in Hl.
    revert Hl. destruct Hm as [<-|[<-|[<-|[]]]]; not_in_list.
  - intro Hr. apply (chain_returned _ _ _ _ _ (ITK_run method held)) in Hr.
    destruct Hr as [Hr _]. revert Hr.
    destruct Hm as [<-|[<-|[<-|[]]]]; discriminate.
Qed.

Lemma probe_silent (held : Pointer) :
  let f := VTKProbeFilterResampling raises inputImage size spacing origin
             CLPProcessInformation in
  (forall line, ~ In (Print line) (events f held)) /\
  result f held <> Returned EXIT_FAILURE.
Proof.
  intro f. split.
  - intros line Hl. apply (chain_In _ _ _ _ _ (probe_run held)) in Hl.
    revert Hl. not_in_list.
  - intro Hr. apply (chain_returned _ _ _ _ _ (probe_run held)) in Hr.
    destruct Hr as [Hr _]. discriminate Hr.
Qed.

Lemma point_silent (method : Z) (held : Pointer) :
  In method [VTK_GAUSSIAN_KERNEL; VTK_LINEAR_KERNEL; VTK_SHEPARD_KERNEL;
             VTK_VORONOI_KERNEL] ->
  let f := VTKPointInterpolatorResampling raises inputImage size spacing
             origin method CLPProcessInformation in
  (forall line, ~ In (Print line) (events f held)) /\
  result f held <> Returned EXIT_FAILURE.
Proof.
  intros Hm f. split.
  - intros line Hl. apply (chain_In _ _ _ _ _ (point_run method held)) in Hl.
    revert Hl. destruct Hm as [<-|[<-|[<-|[<-|[]]]]]; not_in_list.
  - intro Hr. apply (chain_returned _ _ _ _ _ (point_run method held)) in Hr.
    destruct Hr as [Hr _]. revert Hr.
    destruct Hm as [<-|[<-|[<-|[<-|[]]]]]; discriminate.
Qed.

Lemma kernel_methods (method : Z) :
  is_kernel_method method = true ->
  In method [VTK_GAUSSIAN_KERNEL; VTK_LINEAR_KERNEL; VTK_SHEPARD_KERNEL;
             VTK_VORONOI_KERNEL].
Proof.
  unfold is_kernel_method. rewrite !orb_true_iff, !Z.eqb_eq. simpl.
  intuition (subst; auto).
Qed.

(** An adapter that assigned [outputImage] has returned [EXIT_SUCCESS]. *)
Lemma ITK_assigns (method : Z) (held p : Pointer) :
  let f := ITKScanConversionResampling raises inputImage size spacing origin
             direction method CLPProcessInformation in
  In (Assign_outputImage p) (events f held) ->
  result f held = Returned EXIT_SUCCESS.
Proof.
  intros f Hp. pose proof (ITK_run method held) as Hrun. fold f in Hrun.
  unfold ITK_chain, ITK_rc in Hrun.
  destruct (is_ITK_method method).
  - apply (chain_assigned _ _ _ _ _ Hrun p); [|exact Hp].
    intro q. walk_final.
  - apply (chain_In _ _ _ _ _ Hrun) in Hp. exfalso. which_in Hp.
Qed.

Lemma probe_assigns (held p : Pointer) :
  let f := VTKProbeFilterResampling raises inputImage size spacing origin
             CLPProcessInformation in
  In (Assign_outputImage p) (events f held) ->
  result f held = Returned EXIT_SUCCESS.
Proof.
  intros f Hp. apply (chain_assigned _ _ _ _ _ (probe_run held) p);
    [|exact Hp].
  intro q. walk_final.
Qed.

Lemma point_assigns (method : Z) (held p : Pointer) :
  let f := VTKPointInterpolatorResampling raises inputImage size spacing
             origin method CLPProcessInformation in
  In (Assign_outputImage p) (events f held) ->
  result f held = Returned EXIT_SUCCESS.
Proof.
  intros f Hp. pose proof (point_run method held) as Hrun. fold f in Hrun.
  destruct (is_kernel_method method) eqn:Hk.
  - destruct (kernel_methods method Hk) as [<-|[<-|[<-|[<-|[]]]]];
      (apply (chain_assigned _ _ _ _ _ Hrun p); [|exact Hp]);
      intro q; walk_final.
  - unfold point_chain in Hrun. rewrite Hk in Hrun.
    apply (chain_In _ _ _ _ _ Hrun) in Hp. exfalso. which_in Hp.
Qed.

End AdapterRuns.

(* ================================================================= *)
(** ** The ITK adapter *)

Section ITKAdapter.

Variable raises : Call -> bool.
Variables (inputImage : Pointer) (size : SizeType) (spacing : SpacingType)
  (origin : PointType) (direction : DirectionType)
  (CLPProcessInformation : Pointer).

Let ITK := ITKScanConversionResampling raises inputImage size spacing origin
             direction.
Let chain := ITK_chain inputImage size spacing origin direction
               CLPProcessInformation.


End ITKAdapter.

(* ================================================================= *)
(** ** The dispatcher *)

Lemma method_of_range (methodString : string) :
  In (method_of methodString)
    [ ITK_NEAREST_NEIGHBOR; ITK_LINEAR; ITK_WINDOWED_SINC; VTK_PROBE_FILTER;
      VTK_GAUSSIAN_KERNEL; VTK_LINEAR_KERNEL; VTK_SHEPARD_KERNEL;
      VTK_VORONOI_KERNEL ].
Proof.
  unfold method_of.
  repeat match goal with
         | |- context [String.eqb methodString ?name] =>
             destruct (String.eqb methodString name)
         end; in_list.
Qed.

Lemma method_of_unrecognized (methodString : string) :
  ~ In methodString recognized_names -> method_of methodString = ITK_LINEAR.
Proof.
  intro H. unfold method_of.
  repeat match goal with
         | |- context [String.eqb methodString ?name] =>
             destruct (String.eqb_spec methodString name) as [->|_];
             [ exfalso; apply H; in_list | ]
         end.
  reflexivity.
Qed.

Lemma body_call_return (F : Function) (k : unit -> Stmt Empty_set)
  (w : World) :
  body (seq (seq (call F) (fun rc => return_ rc)) k) w = F w.
Proof. unfold body, seq, call, return_. now destruct (F w) as [[] ?]. Qed.

Section Dispatcher.

Variable raises : Call -> bool.
Variables (inputImage : Pointer) (size : SizeType) (spacing : SpacingType)
  (origin : PointType) (direction : DirectionType)
  (CLPProcessInformation : Pointer).

Let SCR (methodString : string) : Function :=
  ScanConversionResampling raises inputImage size spacing origin direction
    methodString CLPProcessInformation.
Let ITK (method : Z) : Function :=
  ITKScanConversionResampling raises inputImage size spacing origin
    direction method CLPProcessInformation.
Let probe : Function :=
  VTKProbeFilterResampling raises inputImage size spacing origin
    CLPProcessInformation.
Let point (method : Z) : Function :=
  VTKPointInterpolatorResampling raises inputImage size spacing origin
    method CLPProcessInformation.

(** Whatever the string, the dispatcher is the adapter of [method_of]. *)
Lemma dispatch (methodString : string) (w : World) :
  SCR methodString w
  = adapter_for raises inputImage size spacing origin direction
      (method_of methodString) CLPProcessInformation w.
Proof.
  unfold SCR, ScanConversionResampling, ScanConversionResampling_calling,
    adapter_for.
  destruct (method_of_range methodString) as [H|[H|[H|[H|[H|[H|[H|[H|[]]]]]]]]];
    rewrite <- H; cbv beta iota zeta; apply body_call_return.
Qed.

(** C2: each of the eight recognized names is mapped to its enumerator,
    and the dispatcher then is the matching adapter called with it: the
    ITK adapter for the three ITK methods, the probe-filter adapter for
    the probe filter, the point-interpolator adapter for the four
    kernels. *)
Theorem recognized_names_dispatch :
  (method_of "ITKNearestNeighbor" = ITK_NEAREST_NEIGHBOR /\
   forall w, SCR "ITKNearestNeighbor" w = ITK ITK_NEAREST_NEIGHBOR w) /\
  (method_of "ITKLinear" = ITK_LINEAR /\
   forall w, SCR "ITKLinear" w = ITK ITK_LINEAR w) /\
  (method_of "ITKWindowedSinc" = ITK_WINDOWED_SINC /\
   forall w, SCR "ITKWindowedSinc" w = ITK ITK_WINDOWED_SINC w) /\
  (method_of "VTKProbeFilter" = VTK_PROBE_FILTER /\
   forall w, SCR "VTKProbeFilter" w = probe w) /\
  (method_of "VTKGaussianKernel" = VTK_GAUSSIAN_KERNEL /\
   forall w, SCR "VTKGaussianKernel" w = point VTK_GAUSSIAN_KERNEL w) /\
  (method_of "VTKLinearKernel" = VTK_LINEAR_KERNEL /\
   forall w, SCR "VTKLinearKernel" w = point VTK_LINEAR_KERNEL w) /\
  (method_of "VTKShepardKernel" = VTK_SHEPARD_KERNEL /\
   forall w, SCR "VTKShepardKernel" w = point VTK_SHEPARD_KERNEL w) /\
  (method_of "VTKVoronoiKernel" = VTK_VORONOI_KERNEL /\
   forall w, SCR "VTKVoronoiKernel" w = point VTK_VORONOI_KERNEL w).
Proof.
  repeat split; intro w; rewrite dispatch; reflexivity.
Qed.

(** C4: for every recognized name the dispatcher ends as the function it
    calls for that name ends, whatever that function is and does: it
    returns the callee's return code unchanged, be it [EXIT_SUCCESS],
    [EXIT_FAILURE] or any other integer, in the world the callee left.
    In particular, with the adapters of the header it ends as the adapter
    serving the name ends. *)
Theorem return_code_forwarded
  (ITK_ : ITK_adapter) (probe_ : probe_adapter) (point_ : point_adapter)
  (methodString : string) (w : World) :
  In methodString recognized_names ->
  let dispatcher :=
    ScanConversionResampling_calling ITK_ probe_ point_ inputImage size
      spacing origin direction methodString CLPProcessInformation in
  let callee :=
    callee_named ITK_ probe_ point_ inputImage size spacing origin direction
      methodString CLPProcessInformation in
  dispatcher w = callee w /\
  (forall rc w', callee w = (Returned rc, w') ->
                 dispatcher w = (Returned rc, w')) /\
  SCR methodString w
  = adapter_named raises inputImage size spacing origin direction
      methodString CLPProcessInformation w.
Proof.
  intros H dispatcher callee.
  assert (Heq : forall ITK' probe' point',
             ScanConversionResampling_calling ITK' probe' point' inputImage
               size spacing origin direction methodString
               CLPProcessInformation w
             = callee_named ITK' probe' point' inputImage size spacing origin
                 direction methodString CLPProcessInformation w).
  { intros ITK' probe' point'.
    unfold ScanConversionResampling_calling, callee_named. simpl in H.
    repeat (destruct H as [<-|H]; [apply body_call_return|]). destruct H. }
  split; [apply Heq|]. split.
  - intros rc w' Hc. unfold dispatcher. rewrite Heq. exact Hc.
  - apply Heq.
Qed.

Lemma dispatch_run (methodString : string) (held : Pointer) :
  run (SCR methodString) held
  = run (adapter_for raises inputImage size spacing origin direction
           (method_of methodString) CLPProcessInformation) held.
Proof. apply dispatch. Qed.

(** The dispatcher prints nothing and returns no [EXIT_FAILURE]. *)
Lemma dispatch_silent (methodString : string) (held : Pointer) :
  (forall line, ~ In (Print line) (events (SCR methodString) held)) /\
  result (SCR methodString) held <> Returned EXIT_FAILURE.
Proof.
  unfold result, events. rewrite dispatch_run. unfold adapter_for.
  destruct (method_of_range methodString)
    as [H|[H|[H|[H|[H|[H|[H|[H|[]]]]]]]]]; rewrite <- H; simpl.
  1-3: apply ITK_silent; in_list.
  1: apply probe_silent.
  all: apply point_silent; in_list.
Qed.

(** C6: whatever the method name, the dispatcher calls the ITK adapter
    only with one of the three ITK methods and the point-interpolator
    adapter only with one of the four kernel methods; so nothing is
    printed, neither adapter's error message in particular, and no
    [EXIT_FAILURE] is returned. *)
Theorem adapter_error_branches_unreachable
  (methodString : string) (held : Pointer) :
  let f := SCR methodString in
  ((exists method,
       In method [ITK_NEAREST_NEIGHBOR; ITK_LINEAR; ITK_WINDOWED_SINC] /\
       forall w, f w = ITK method w) \/
   (forall w, f w = probe w) \/
   (exists method,
       In method [VTK_GAUSSIAN_KERNEL; VTK_LINEAR_KERNEL; VTK_SHEPARD_KERNEL;
                  VTK_VORONOI_KERNEL] /\
       forall w, f w = point method w)) /\
  ~ In (Print "Unsupported resampling method in ITKScanConversionResampling")
       (events f held) /\
  (forall method,
     ~ In (Print ("Unexpected interpolation kernel: " ++ decimal method)%string)
          (events f held)) /\
  (forall line, ~ In (Print line) (events f held)) /\
  cerr (snd (run f held)) = [] /\
  result f held <> Returned EXIT_FAILURE.
Proof.
  intro f.
  pose proof (dispatch_silent methodString held) as Hsilent.
  fold f in Hsilent.
  destruct Hsilent as [Hprint Hrc].
  split; [|split; [apply Hprint|split; [intro; apply Hprint|split;
    [exact Hprint|split; [|exact Hrc]]]]].
  - unfold f.
    destruct (method_of_range methodString)
      as [H|[H|[H|[H|[H|[H|[H|[H|[]]]]]]]]].
    1-3: left; exists (method_of methodString); split;
      [rewrite <- H; in_list | intro w; rewrite dispatch, <- H; reflexivity].
    1: right; left; intro w; rewrite dispatch, <- H; reflexivity.
    all: right; right; exists (method_of methodString); split;
      [rewrite <- H; in_list | intro w; rewrite dispatch, <- H; reflexivity].
  - assert (Hcerr : cerr (snd (run f held)) = printed (events f held)).
    { unfold events, f. rewrite dispatch_run. unfold adapter_for.
      destruct (method_of_range methodString)
        as [H|[H|[H|[H|[H|[H|[H|[H|[]]]]]]]]]; rewrite <- H; simpl.
      1-3: exact (chain_cerr _ _ _ _ _ (ITK_run _ _ _ _ _ _ _ _ _)).
      1: exact (chain_cerr _ _ _ _ _ (probe_run _ _ _ _ _ _ _)).
      all: exact (chain_cerr _ _ _ _ _ (point_run _ _ _ _ _ _ _ _)). }
    rewrite Hcerr. now apply printed_nil.
Qed.

(** C1, as the code has it: a name that is none of the eight leaves
    [method] at its initial value [ITK_LINEAR], and the dispatcher is then
    the ITK adapter with the linear interpolator.  The fallback of lines
    389-392 is not taken; when no toolkit call raises, the resampler is
    updated, [outputImage] is assigned its output and [EXIT_SUCCESS] is
    returned. *)
Theorem unrecognized_name_runs_ITK_linear
  (methodString : string) (held : Pointer) :
  ~ In methodString recognized_names ->
  let f := SCR methodString in
  method_of methodString = ITK_LINEAR /\
  (forall w, f w = ITK ITK_LINEAR w) /\
  ~ takes_fallback f held /\
  (forall line, ~ In (Print line) (events f held)) /\
  result f held <> Returned EXIT_FAILURE /\
  ((forall c, raises c = false) ->
     result f held = Returned EXIT_SUCCESS /\
     In (Toolkit (New interpolator LinearInterpolateImageFunction))
        (events f held) /\
     In (Toolkit (Invoke resampler Update)) (events f held) /\
     outputImage (snd (run f held)) = GetOutput resampler).
Proof.
  intros Hs f.
  pose proof (method_of_unrecognized methodString Hs) as Hm.
  destruct (dispatch_silent methodString held) as [Hprint Hrc].
  assert (Hf : forall w, f w = ITK ITK_LINEAR w).
  { intro w. unfold f. rewrite dispatch, Hm. reflexivity. }
  split; [exact Hm|]. split; [exact Hf|].
  split; [intros [Hr _]; now apply Hrc|].
  split; [exact Hprint|]. split; [exact Hrc|].
  intro Hnever.
  assert (Hrun : run f held = run (ITK ITK_LINEAR) held) by apply Hf.
  unfold result, events. rewrite Hrun.
  destruct (chain_never _ _ _ _ _ (ITK_run raises inputImage size spacing
              origin direction CLPProcessInformation ITK_LINEAR held) Hnever)
    as (Hr & He & Ho).
  unfold result, events in Hr, He. unfold ITK. rewrite Hr, He, Ho.
  repeat split; in_list.
Qed.

(** An assignment to [outputImage] through the dispatcher is one of an
    adapter that then returned [EXIT_SUCCESS]. *)
Lemma dispatch_assigns (methodString : string) (held p : Pointer) :
  In (Assign_outputImage p) (events (SCR methodString) held) ->
  result (SCR methodString) held = Returned EXIT_SUCCESS.
Proof.
  unfold result, events. rewrite dispatch_run. unfold adapter_for.
  destruct (method_of_range methodString)
    as [H|[H|[H|[H|[H|[H|[H|[H|[]]]]]]]]]; rewrite <- H; simpl.
  1-3: apply ITK_assigns.
  1: apply probe_assigns.
  all: apply point_assigns.
Qed.

(** C8: when the dispatcher or one of the three adapters returns
    [EXIT_FAILURE], [outputImage] is what the caller passed in; a run in
    which [outputImage] was assigned has returned [EXIT_SUCCESS]. *)
Theorem failure_leaves_outputImage
  (f : Function) (method : Z) (methodString : string) (held : Pointer) :
  In f [ ITK method; probe; point method; SCR methodString ] ->
  (result f held = Returned EXIT_FAILURE ->
   outputImage (snd (run f held)) = held) /\
  (forall p, In (Assign_outputImage p) (events f held) ->
             result f held = Returned EXIT_SUCCESS).
Proof.
  intros [<-|[<-|[<-|[<-|[]]]]]; unfold ITK, probe, point; split.
  - intro Hr.
    apply (chain_returned _ _ _ _ _ (ITK_run raises inputImage size spacing
             origin direction CLPProcessInformation method held)) in Hr.
    destruct Hr as (Hrc & _ & _ & ->).
    unfold ITK_rc in Hrc. unfold ITK_chain.
    destruct (is_ITK_method method); [discriminate Hrc | reflexivity].
  - intro p. apply ITK_assigns.
  - intro Hr.
    apply (chain_returned _ _ _ _ _ (probe_run raises inputImage size spacing
             origin CLPProcessInformation held)) in Hr.
    destruct Hr as (Hrc & _). discriminate Hrc.
  - intro p. apply probe_assigns.
  - intro Hr.
    apply (chain_returned _ _ _ _ _ (point_run raises inputImage size spacing
             origin CLPProcessInformation method held)) in Hr.
    destruct Hr as (Hrc & _ & _ & ->).
    unfold point_rc in Hrc. unfold point_chain.
    destruct (is_kernel_method method); [discriminate Hrc | reflexivity].
  - intro p. apply point_assigns.
  - intro Hr. now destruct (dispatch_silent methodString held) as [_ Hrc].
  - intro p. apply dispatch_assigns.
Qed.

End Dispatcher.

(* ================================================================= *)
(** ** The point-interpolator adapter *)

Section PointAdapter.

Variable raises : Call -> bool.
Variables (inputImage : Pointer) (size : SizeType) (spacing : SpacingType)
  (origin : PointType) (CLPProcessInformation : Pointer).

Let point (method : Z) : Function :=
  VTKPointInterpolatorResampling raises inputImage size spacing origin
    method CLPProcessInformation.
Let chain := point_chain inputImage size spacing origin
               CLPProcessInformation.

Let kernels : list Z :=
  [ VTK_GAUSSIAN_KERNEL; VTK_LINEAR_KERNEL; VTK_SHEPARD_KERNEL;
    VTK_VORONOI_KERNEL ].

Lemma point_kernel_run (method : Z) (held : Pointer) :
  In method kernels ->
  run (point method) held
  = run (body (straight raises (chain method) EXIT_SUCCESS)) held.
Proof.
  intro Hm. unfold point, chain. rewrite point_run.
  now destruct Hm as [<-|[<-|[<-|[<-|[]]]]].
Qed.

(** C10: for each of the four kernel methods, before the point
    interpolator is updated it is told not to pass point arrays and to
    give points without contributing source points the null value 0.0;
    no other flag or null value is ever set.  When no toolkit call raises,
    the update happens. *)
Theorem null_points_configured (method : Z) (held : Pointer) :
  In method [ VTK_GAUSSIAN_KERNEL; VTK_LINEAR_KERNEL; VTK_SHEPARD_KERNEL;
              VTK_VORONOI_KERNEL ] ->
  let t := events (point method) held in
  let invoke := Toolkit (Invoke pointInterpolator Update) in
  precedes (Toolkit (Invoke pointInterpolator (SetPassPointArrays false)))
    invoke t /\
  precedes (Toolkit (Invoke pointInterpolator SetNullPointsStrategyToNullValue))
    invoke t /\
  precedes (Toolkit (Invoke pointInterpolator (SetNullValue 0%float)))
    invoke t /\
  (forall p flag,
     In (Toolkit (Invoke p (SetPassPointArrays flag))) t -> flag = false) /\
  (forall p value,
     In (Toolkit (Invoke p (SetNullValue value))) t -> value = 0%float) /\
  ((forall c, raises c = false) -> In invoke t).
Proof.
  intros Hm t invoke. pose proof (point_kernel_run method held Hm) as Hrun.
  split; [|split; [|split; [|split; [|split]]]].
  1-3: apply (chain_precedes _ _ _ _ _ Hrun);
       destruct Hm as [<-|[<-|[<-|[<-|[]]]]]; walk_precedes.
  - intros p flag H. apply (chain_In _ _ _ _ _ Hrun) in H.
    destruct Hm as [<-|[<-|[<-|[<-|[]]]]]; which_in H;
      now injection H as _ <-.
  - intros p value H. apply (chain_In _ _ _ _ _ Hrun) in H.
    destruct Hm as [<-|[<-|[<-|[<-|[]]]]]; which_in H;
      now injection H as _ <-.
  - intro Hnever.
    destruct (chain_never _ _ _ _ _ Hrun Hnever) as (_ & He & _).
    unfold t. rewrite He.
    destruct Hm as [<-|[<-|[<-|[<-|[]]]]]; in_list.
Qed.

(** C9, as the code has it: the Gaussian, linear and Shepard kernels are
    put in radius mode and given, before the point interpolator is
    updated, the radius 1.1 times the running maximum of lines 214-218,
    which starts at 0.0: the largest of 0.0 and the three spacing
    components.  No other radius is set, and for the Voronoi kernel
    neither the radius mode nor a radius is set.  When the first spacing
    component is positive the radius is 1.1 times the maximum component;
    when no component is positive it is 0.0. *)
Theorem kernel_footprint_radius (method : Z) (held : Pointer) :
  In method [ VTK_GAUSSIAN_KERNEL; VTK_LINEAR_KERNEL; VTK_SHEPARD_KERNEL;
              VTK_VORONOI_KERNEL ] ->
  let t := events (point method) held in
  let invoke := Toolkit (Invoke pointInterpolator Update) in
  let kernel := kernel_object method in
  let r :=
    PrimFloat.mul 1.1%float
      (std_max (std_max (std_max 0%float (elem0 spacing)) (elem1 spacing))
         (elem2 spacing)) in
  precedes (Toolkit (New kernel (kernel_class method))) invoke t /\
  precedes (Toolkit (Invoke pointInterpolator (SetKernel kernel))) invoke t /\
  (method <> VTK_VORONOI_KERNEL ->
     precedes (Toolkit (Invoke kernel SetKernelFootprintToRadius)) invoke t /\
     precedes (Toolkit (Invoke kernel (SetRadius r))) invoke t) /\
  (forall p r',
     In (Toolkit (Invoke p (SetRadius r'))) t ->
     method <> VTK_VORONOI_KERNEL /\ p = Local kernel /\ r' = r) /\
  (forall p,
     In (Toolkit (Invoke p SetKernelFootprintToRadius)) t ->
     method <> VTK_VORONOI_KERNEL /\ p = Local kernel) /\
  (PrimFloat.ltb 0%float (elem0 spacing) = true ->
     r = scaled_max_component spacing) /\
  (PrimFloat.ltb 0%float (elem0 spacing) = false ->
   PrimFloat.ltb 0%float (elem1 spacing) = false ->
   PrimFloat.ltb 0%float (elem2 spacing) = false ->
     r = 0%float) /\
  ((forall c, raises c = false) ->
     In invoke t /\
     (method <> VTK_VORONOI_KERNEL -> kernel_radius_is method r t)).
Proof.
  intros Hm t invoke kernel r.
  pose proof (point_kernel_run method held Hm) as Hrun.
  assert (Hpos : PrimFloat.ltb 0%float (elem0 spacing) = true ->
                 r = scaled_max_component spacing).
  { intro Hpos. unfold r, scaled_max_component, max_component.
    unfold std_max at 3. now rewrite Hpos. }
  assert (Hzero : PrimFloat.ltb 0%float (elem0 spacing) = false ->
                  PrimFloat.ltb 0%float (elem1 spacing) = false ->
                  PrimFloat.ltb 0%float (elem2 spacing) = false ->
                  r = 0%float).
  { intros H0 H1 H2. unfold r.
    unfold std_max at 3. rewrite H0.
    unfold std_max at 2. rewrite H1.
    unfold std_max. rewrite H2. reflexivity. }
  assert (Hnever : (forall c, raises c = false) -> events (point method) held
                   = chain method).
  { intro Hnever. now destruct (chain_never _ _ _ _ _ Hrun Hnever) as (_ & He & _). }
  unfold kernel_radius_is. fold t in Hnever.
  destruct Hm as [<-|[<-|[<-|[<-|[]]]]];
    subst kernel; simpl kernel_object; simpl kernel_class;
    (split; [|split; [|split; [|split; [|split; [|split; [|split]]]]]]);
    try exact Hpos; try exact Hzero.
  all: try (apply (chain_precedes _ _ _ _ _ Hrun); walk_precedes).
  all: try (intro Hv; split; first
              [ exfalso; apply Hv; reflexivity
              | apply (chain_precedes _ _ _ _ _ Hrun); walk_precedes ]).
  all: try (intros p r' H; apply (chain_In _ _ _ _ _ Hrun) in H; which_in H;
            injection H as <- <-; repeat split; discriminate).
  all: try (intros p H; apply (chain_In _ _ _ _ _ Hrun) in H; which_in H;
            injection H as <-; repeat split; discriminate).
  all: intro Hn; rewrite (Hnever Hn); split;
    [ in_list | intro Hv; first [ exfalso; apply Hv; reflexivity | in_list ] ].
Qed.

(** C5: for each of the four kernel methods, a run that returns has
    returned [EXIT_SUCCESS] after the point interpolator and the
    VTK-to-ITK filter of float pixels were updated, and ends with lines
    283-298: the float image is cast to the output pixel type, a new
    output image gets the cast image's largest possible region, is
    allocated and receives a copy of the cast image, and [outputImage] is
    assigned that new image.  The run returns when no toolkit call
    raises; [outputImage] is not touched otherwise. *)
Theorem output_is_copy_of_cast (method : Z) (held : Pointer) :
  In method [ VTK_GAUSSIAN_KERNEL; VTK_LINEAR_KERNEL; VTK_SHEPARD_KERNEL;
              VTK_VORONOI_KERNEL ] ->
  let f := point method in
  ((forall c, raises c = false) -> result f held = Returned EXIT_SUCCESS) /\
  (forall rc, result f held = Returned rc ->
     rc = EXIT_SUCCESS /\
     outputImage (snd (run f held)) = Local output /\
     exists pre,
       events f held = pre ++ cast_and_copy /\
       In (Toolkit (Invoke pointInterpolator Update)) pre /\
       In (Toolkit (New vtkToITKFilter (VTKImageToImageFilter FloatPixel))) pre /\
       In (Toolkit (Invoke vtkToITKFilter
                      (SetInput (GetImageDataOutput pointInterpolator)))) pre /\
       In (Toolkit (Invoke vtkToITKFilter Update)) pre) /\
  (outputImage (snd (run f held)) = held \/
   result f held = Returned EXIT_SUCCESS).
Proof.
  intros Hm f.
  pose proof (point_kernel_run method held Hm) as Hrun. fold f in Hrun.
  split; [|split].
  - intro Hnever. now destruct (chain_never _ _ _ _ _ Hrun Hnever).
  - intros rc Hr.
    destruct (chain_returned _ _ _ _ _ Hrun rc Hr) as (-> & _ & -> & ->).
    split; [reflexivity|]. split.
    + destruct Hm as [<-|[<-|[<-|[<-|[]]]]]; reflexivity.
    + exists (interpolation_steps inputImage size spacing origin
                CLPProcessInformation method).
      destruct Hm as [<-|[<-|[<-|[<-|[]]]]];
        (split; [reflexivity | repeat split; in_list]).
  - destruct (chain_outputImage _ _ _ _ _ Hrun) as [Ho|(Hr & _)];
      [|now left|now right].
    intro p. destruct Hm as [<-|[<-|[<-|[<-|[]]]]]; walk_final.
Qed.

End PointAdapter.

(* ================================================================= *)
(** ** Geometry *)

Lemma as_int_fits (z : SizeValueType) : fits_int z -> as_int z = z.
Proof.
  unfold fits_int, as_int. intro H. rewrite Z.mod_small; lia.
Qed.

Section Geometry.

Variable raises : Call -> bool.
Variables (inputImage : Pointer) (size : SizeType) (spacing : SpacingType)
  (origin : PointType) (direction : DirectionType)
  (CLPProcessInformation : Pointer).

Let SCR (direction : DirectionType) (methodString : string) : Function :=
  ScanConversionResampling raises inputImage size spacing origin direction
    methodString CLPProcessInformation.

(** The dispatcher from the entry world, as a straight-line run. *)
Lemma dispatch_ITK_run (methodString : string) (held : Pointer) :
  is_ITK_method (method_of methodString) = true ->
  run (SCR direction methodString) held
  = run (body (straight raises
                 (ITK_chain inputImage size spacing origin direction
                    CLPProcessInformation (method_of methodString))
                 (ITK_rc (method_of methodString)))) held.
Proof.
  intro H. unfold SCR. rewrite dispatch_run. unfold adapter_for.
  rewrite H. apply ITK_run.
Qed.

Lemma dispatch_probe_run (methodString : string) (held : Pointer) :
  method_of methodString = VTK_PROBE_FILTER ->
  run (SCR direction methodString) held
  = run (body (straight raises
                 (probe_chain inputImage size spacing origin
                    CLPProcessInformation)
                 EXIT_SUCCESS)) held.
Proof.
  intro H. unfold SCR. rewrite dispatch_run. unfold adapter_for.
  rewrite H. apply probe_run.
Qed.

Lemma dispatch_point_run (methodString : string) (held : Pointer) :
  is_kernel_method (method_of methodString) = true ->
  run (SCR direction methodString) held
  = run (body (straight raises
                 (point_chain inputImage size spacing origin
                    CLPProcessInformation (method_of methodString))
                 (point_rc (method_of methodString)))) held.
Proof.
  intro H. unfold SCR. rewrite dispatch_run. unfold adapter_for.
  destruct (method_of_range methodString)
    as [E|[E|[E|[E|[E|[E|[E|[E|[]]]]]]]]]; rewrite <- E in *;
    try discriminate H; apply point_run.
Qed.

(** The VTK adapters take no direction. *)
Lemma direction_unused (direction' : DirectionType) (methodString : string)
  (w : World) :
  is_ITK_method (method_of methodString) = false ->
  SCR direction' methodString w = SCR direction methodString w.
Proof.
  intro H. unfold SCR. rewrite !dispatch. unfold adapter_for. now rewrite H.
Qed.

(** C3, as the code has it.  For each of the three ITK names the
    resampler is given size, spacing, origin and direction before it is
    updated, and no other geometry call is made in the run.  For each of
    the five VTK names the [vtkImageData] grid is given the size, each
    component converted to [int], the spacing and the origin before the
    probe filter or the point interpolator is updated; these are the
    caller's size components when each fits an [int]; the run makes no
    other geometry call, none on the resampler and none with a
    direction, and is the same for every direction; and the conversion
    filter, the first stage of the chain, has already been updated when
    the grid is given its size.  When no toolkit call raises, the update
    happens. *)
Theorem geometry_configured_before_update
  (methodString : string) (held : Pointer) :
  In methodString recognized_names ->
  let t := events (SCR direction methodString) held in
  let invoke := resampling_update (method_of methodString) in
  let ran p m := Toolkit (Invoke p m) in
  (In methodString ITK_names ->
     Forall (fun e => precedes e invoke t)
       (resampler_geometry size spacing origin direction) /\
     (forall p m, is_geometry_call m = true -> In (ran p m) t ->
        In (ran p m) (resampler_geometry size spacing origin direction))) /\
  (~ In methodString ITK_names ->
     Forall (fun e => precedes e invoke t)
       (grid_geometry size spacing origin) /\
     (forall p m, is_geometry_call m = true -> In (ran p m) t ->
        In (ran p m) (grid_geometry size spacing origin)) /\
     (fits_int (elem0 size) -> fits_int (elem1 size) ->
      fits_int (elem2 size) ->
        precedes
          (ran grid (SetDimensions (elem0 size) (elem1 size) (elem2 size)))
          invoke t) /\
     (forall d e, sets_direction d e -> ~ In e t) /\
     (forall direction' w,
        SCR direction' methodString w = SCR direction methodString w) /\
     precedes (ran conversionFilter Update)
       (ran grid (SetDimensions (as_int (elem0 size)) (as_int (elem1 size))
                    (as_int (elem2 size)))) t) /\
  ((forall c, raises c = false) -> In invoke t).
Proof.
  intros Hs t invoke ran. simpl in Hs.
  destruct Hs as [<-|[<-|[<-|[<-|[<-|[<-|[<-|[<-|[]]]]]]]]];
    [ pose proof (dispatch_ITK_run "ITKNearestNeighbor" held eq_refl) as Hrun
    | pose proof (dispatch_ITK_run "ITKLinear" held eq_refl) as Hrun
    | pose proof (dispatch_ITK_run "ITKWindowedSinc" held eq_refl) as Hrun
    | pose proof (dispatch_probe_run "VTKProbeFilter" held eq_refl) as Hrun
    | pose proof (dispatch_point_run "VTKGaussianKernel" held eq_refl) as Hrun
    | pose proof (dispatch_point_run "VTKLinearKernel" held eq_refl) as Hrun
    | pose proof (dispatch_point_run "VTKShepardKernel" held eq_refl) as Hrun
    | pose proof (dispatch_point_run "VTKVoronoiKernel" held eq_refl) as Hrun ];
    vm_compute in invoke; fold t in Hrun;
    (split; [|split]).
  (* the three ITK names *)
  1,4,7: intros _; split;
    [ repeat constructor; apply (chain_precedes _ _ _ _ _ Hrun); walk_precedes
    | intros p m Hg H; apply (chain_In _ _ _ _ _ Hrun) in H; which_in H;
      injection H as <- <-; first [ discriminate Hg | in_list ] ].
  1,3,5: intro Hn; exfalso; apply Hn; in_list.
  1,2,3: intro Hn;
    destruct (chain_never _ _ _ _ _ Hrun Hn) as (_ & He & _);
    unfold t; rewrite He; in_list.
  (* the five VTK names *)
  1,4,7,10,13: intro Hn; exfalso; which_in Hn.
  1,3,5,7,9: intros _;
    assert (Hgeo : Forall (fun e => precedes e invoke t)
                     (grid_geometry size spacing origin))
      by (repeat constructor; apply (chain_precedes _ _ _ _ _ Hrun);
          walk_precedes);
    (split; [exact Hgeo|]);
    (split; [|split; [|split; [|split]]]);
    [ intros p m Hg H; apply (chain_In _ _ _ _ _ Hrun) in H; which_in H;
      injection H as <- <-; first [ discriminate Hg | in_list ]
    | intros F0 F1 F2; pose proof (Forall_inv Hgeo) as Hp; simpl in Hp;
      rewrite !as_int_fits in Hp by assumption; exact Hp
    | intros d e [p ->] H; apply (chain_In _ _ _ _ _ Hrun) in H; which_in H
    | intros direction' w; now apply direction_unused
    | apply (chain_precedes _ _ _ _ _ Hrun); walk_precedes ].
  all: intro Hn;
    destruct (chain_never _ _ _ _ _ Hrun Hn) as (_ & He & _);
    unfold t; rewrite He; in_list.
Qed.

End Geometry.

(* ================================================================= *)
(** ** Concrete runs *)

Lemma Bilinear_unrecognized : ~ In "Bilinear" recognized_names.
Proof. intro H. which_in H. Defined.

Lemma never_raises : forall c, never c = false.
Proof. reflexivity. Defined.

(** C1 fails as stated: "Bilinear" is none of the eight names, and the
    dispatcher returns [EXIT_SUCCESS] after running the ITK chain. *)
Lemma unrecognized_name_takes_no_fallback :
  ~ (~ In "Bilinear" recognized_names ->
     takes_fallback (example_dispatch "Bilinear") (Held 0)).
Proof.
  intro H. destruct (H Bilinear_unrecognized) as [Hr _].
  vm_compute in Hr. discriminate Hr.
Qed.

Lemma unrecognized_name_runs_ITK_linear_witness :
  ~ In "Bilinear" recognized_names /\
  method_of "Bilinear" = ITK_LINEAR /\
  result (example_dispatch "Bilinear") (Held 0) = Returned EXIT_SUCCESS /\
  outputImage (snd (run (example_dispatch "Bilinear") (Held 0)))
  = GetOutput resampler.
Proof.
  split; [exact Bilinear_unrecognized|].
  destruct (unrecognized_name_runs_ITK_linear never (Held 1) example_size
              example_spacing example_origin identity_direction (Held 2)
              "Bilinear" (Held 0) Bilinear_unrecognized)
    as (Hm & _ & _ & _ & _ & Hrun).
  destruct (Hrun never_raises) as (Hr & _ & _ & Ho).
  split; [exact Hm|]. split; [exact Hr | exact Ho].
Defined.

(** C3 fails as stated: for "VTKProbeFilter" the probe filter is updated
    and no event before it carries the direction. *)
Lemma probe_filter_gets_no_direction :
  ~ full_geometry_configured example_size example_spacing example_origin
      identity_direction (method_of "VTKProbeFilter")
      (events (example_dispatch "VTKProbeFilter") (Held 0)).
Proof.
  intros (_ & _ & _ & _ & e & [p ->] & Hin & _).
  vm_compute in Hin.
  repeat (destruct Hin as [Hin|Hin]; [ discriminate Hin | ]).
  exact Hin.
Qed.

Lemma VTKProbeFilter_not_ITK : ~ In "VTKProbeFilter" ITK_names.
Proof. intro H. which_in H. Defined.

Lemma geometry_configured_before_update_witness :
  In "VTKProbeFilter" recognized_names /\
  Forall
    (fun e =>
       precedes e (Toolkit (Invoke probeFilter Update))
         (events (example_dispatch "VTKProbeFilter") (Held 0)))
    (grid_geometry example_size example_spacing example_origin) /\
  forall direction' w,
    ScanConversionResampling never (Held 1) example_size example_spacing
      example_origin direction' "VTKProbeFilter" (Held 2) w
    = example_dispatch "VTKProbeFilter" w.
Proof.
  assert (Hs : In "VTKProbeFilter" recognized_names) by in_list.
  split; [exact Hs|].
  destruct (geometry_configured_before_update never (Held 1) example_size
              example_spacing example_origin identity_direction (Held 2)
              "VTKProbeFilter" (Held 0) Hs)
    as (_ & Hvtk & _).
  destruct (Hvtk VTKProbeFilter_not_ITK) as (Hgeo & _ & _ & _ & Hdir & _).
  split; [exact Hgeo | exact Hdir].
Defined.

(** The probe-filter callee returns 7, and so does the dispatcher. *)
Lemma return_code_forwarded_witness :
  In "VTKProbeFilter" recognized_names /\
  example_forwarding "VTKProbeFilter" (entry (Held 0))
  = (Returned 7, entry (Held 0)).
Proof.
  assert (Hs : In "VTKProbeFilter" recognized_names) by in_list.
  split; [exact Hs|].
  exact (proj1 (proj2 (return_code_forwarded never (Held 1) example_size
                         example_spacing example_origin identity_direction
                         (Held 2) example_ITK_callee example_probe_callee
                         example_point_callee "VTKProbeFilter"
                         (entry (Held 0)) Hs))
           7 (entry (Held 0)) eq_refl).
Defined.

Lemma output_is_copy_of_cast_witness :
  In VTK_GAUSSIAN_KERNEL
    [ VTK_GAUSSIAN_KERNEL; VTK_LINEAR_KERNEL; VTK_SHEPARD_KERNEL;
      VTK_VORONOI_KERNEL ] /\
  result (VTKPointInterpolatorResampling never (Held 1) example_size
            example_spacing example_origin VTK_GAUSSIAN_KERNEL (Held 2))
    (Held 0) = Returned EXIT_SUCCESS.
Proof.
  assert (Hm : In VTK_GAUSSIAN_KERNEL
                 [ VTK_GAUSSIAN_KERNEL; VTK_LINEAR_KERNEL; VTK_SHEPARD_KERNEL;
                   VTK_VORONOI_KERNEL ]) by in_list.
  split; [exact Hm|].
  exact (proj1 (output_is_copy_of_cast never (Held 1) example_size
                  example_spacing example_origin (Held 2)
                  VTK_GAUSSIAN_KERNEL (Held 0) Hm) never_raises).
Defined.


Lemma failure_leaves_outputImage_witness :
  result example_ITK_misuse (Held 0) = Returned EXIT_FAILURE /\
  outputImage (snd (run example_ITK_misuse (Held 0))) = Held 0.
Proof.
  assert (Hr : result example_ITK_misuse (Held 0) = Returned EXIT_FAILURE)
    by reflexivity.
  split; [exact Hr|].
  apply (failure_leaves_outputImage never (Held 1) example_size
           example_spacing example_origin identity_direction (Held 2)
           example_ITK_misuse VTK_PROBE_FILTER "ITKLinear" (Held 0));
    [|exact Hr].
  left. reflexivity.
Defined.

(** With spacing (-1, -1, -1) the running maximum stays at its initial
    0.0 and the Gaussian kernel gets the radius 0. *)
Lemma negative_spacing_radius :
  radius negative_spacing = 0%float /\
  scaled_max_component negative_spacing = (-1.1)%float /\
  kernel_radius_is VTK_GAUSSIAN_KERNEL 0%float negative_spacing_events.
Proof.
  split; [reflexivity|]. split; [reflexivity|].
  vm_compute. do 22 right. left. reflexivity.
Qed.

(** C9 fails as stated: with spacing (-1, -1, -1) the Gaussian kernel
    does not get the radius 1.1 times the maximum component, -1.1. *)
Lemma radius_is_not_scaled_max_component :
  ~ kernel_radius_is VTK_GAUSSIAN_KERNEL
      (scaled_max_component negative_spacing) negative_spacing_events.
Proof.
  intro H. vm_compute in H.
  repeat (destruct H as [H|H]; [ discriminate H | ]).
  exact H.
Qed.

Lemma kernel_footprint_radius_witness :
  In VTK_SHEPARD_KERNEL
    [ VTK_GAUSSIAN_KERNEL; VTK_LINEAR_KERNEL; VTK_SHEPARD_KERNEL;
      VTK_VORONOI_KERNEL ] /\
  kernel_radius_is VTK_SHEPARD_KERNEL 1.1%float
    (events (VTKPointInterpolatorResampling never (Held 1) example_size
               example_spacing example_origin VTK_SHEPARD_KERNEL (Held 2))
       (Held 0)).
Proof.
  assert (Hm : In VTK_SHEPARD_KERNEL
                 [ VTK_GAUSSIAN_KERNEL; VTK_LINEAR_KERNEL; VTK_SHEPARD_KERNEL;
                   VTK_VORONOI_KERNEL ]) by in_list.
  split; [exact Hm|].
  destruct (kernel_footprint_radius never (Held 1) example_size
              example_spacing example_origin (Held 2)
              VTK_SHEPARD_KERNEL (Held 0) Hm)
    as (_ & _ & _ & _ & _ & _ & _ & Hrun).
  destruct (Hrun never_raises) as [_ Hr].
  apply Hr. discriminate.
Defined.

Lemma null_points_configured_witness :
  In VTK_VORONOI_KERNEL
    [ VTK_GAUSSIAN_KERNEL; VTK_LINEAR_KERNEL; VTK_SHEPARD_KERNEL;
      VTK_VORONOI_KERNEL ] /\
  In (Toolkit (Invoke pointInterpolator Update))
    (events (VTKPointInterpolatorResampling never (Held 1) example_size
               example_spacing example_origin VTK_VORONOI_KERNEL (Held 2))
       (Held 0)).
Proof.
  assert (Hm : In VTK_VORONOI_KERNEL
                 [ VTK_GAUSSIAN_KERNEL; VTK_LINEAR_KERNEL; VTK_SHEPARD_KERNEL;
                   VTK_VORONOI_KERNEL ]) by in_list.
  split; [exact Hm|].
  destruct (null_points_configured never (Held 1) example_size
              example_spacing example_origin (Held 2)
              VTK_VORONOI_KERNEL (Held 0) Hm)
    as (_ & _ & _ & _ & _ & Hrun).
  exact (Hrun never_raises).
Defined.

(* ================================================================= *)
(** ** Further properties of the adapters *)

(** Prove [at_most_once b l] on a list written out. *)
Ltac walk_once :=
  let pre := fresh "pre" in
  let post := fresh "post" in
  let H := fresh "H" in
  intros pre post H; simpl in H;
  repeat (destruct pre as [|? pre];
          [ first [ discriminate H
                  | first [ injection H as _ <- | injection H as <- ];
                    split; not_in_list ]
          | first [ discriminate H
                  | simpl in H; injection H as ? H; subst ] ]).

Lemma at_most_once_prefix (b : Event) (t1 t2 : list Event) :
  at_most_once b (t1 ++ t2) -> at_most_once b t1.
Proof.
  intros H pre post ->. destruct (H pre (post ++ t2)) as [Hpre Hpost].
  - now rewrite <- app_assoc.
  - split; [exact Hpre|]. intro Hb. apply Hpost, in_or_app. now left.
Qed.

(** An event that is final in a sequence does not occur before a call
    at which a run of the sequence stops. *)
Lemma stopped_before_last (b : Event) (pre post : list Event) (c : Call) :
  final b (pre ++ Toolkit c :: post) -> ~ In b pre.
Proof.
  intros H Hb. destruct (in_split _ _ Hb) as (l1 & l2 & ->).
  specialize (H l1 (l2 ++ Toolkit c :: post)).
  rewrite <- app_assoc in H. specialize (H eq_refl).
  now destruct l2.
Qed.

Section MoreChainRuns.

Variable raises : Call -> bool.
Variables (f : Function) (chain : list Event) (rc : Z) (held : Pointer).

Hypothesis f_straight :
  run f held = run (body (straight raises chain rc)) held.

(** The run returns as soon as the calls of the chain itself complete. *)
Lemma chain_quiet :
  quiet raises chain ->
  result f held = Returned rc /\ events f held = chain /\
  outputImage (snd (run f held)) = assigned chain held.
Proof.
  intro Hq.
  destruct (chain_cases _ _ _ _ _ f_straight)
    as [(_ & Hr & He & Ho) | (pre & c & post & Hc & _ & Hraise & _)];
    [now repeat split|].
  rewrite (Hq c) in Hraise; [discriminate Hraise|].
  rewrite Hc. apply in_or_app. right. now left.
Qed.

(** A run that raises stopped at the raising call, the last one logged. *)
Lemma chain_raised (c : Call) :
  result f held = Raised c ->
  exists pre post,
    chain = pre ++ Toolkit c :: post /\ quiet raises pre /\
    raises c = true /\ events f held = pre ++ [Toolkit c] /\
    outputImage (snd (run f held)) = assigned pre held /\
    cerr (snd (run f held)) = printed pre.
Proof.
  intro Hr.
  destruct (chain_cases _ _ _ _ _ f_straight)
    as [(_ & Hr' & _) | (pre & c' & post & Hc & Hq & Hraise & Hr' & He & Ho)].
  - rewrite Hr' in Hr. discriminate Hr.
  - rewrite Hr' in Hr. injection Hr as ->.
    exists pre, post. repeat split; trivial.
    rewrite (chain_cerr _ _ _ _ _ f_straight), He.
    apply printed_snoc_toolkit.
Qed.

Lemma chain_at_most_once (b : Event) :
  at_most_once b chain -> at_most_once b (events f held).
Proof.
  destruct (chain_cases _ _ _ _ _ f_straight)
    as [(_ & _ & -> & _) | (pre & c & post & -> & _ & _ & _ & -> & _)];
    [trivial|].
  intro H. apply at_most_once_prefix with (t2 := post).
  now rewrite <- app_assoc.
Qed.

(** When prints and assignments are final in the chain, a run that raises
    has printed nothing and assigned nothing. *)
Lemma chain_raised_clean (c : Call) :
  (forall line, final (Print line) chain) ->
  (forall p, final (Assign_outputImage p) chain) ->
  result f held = Raised c ->
  raises c = true /\
  (exists pre, events f held = pre ++ [Toolkit c] /\ quiet raises pre) /\
  outputImage (snd (run f held)) = held /\
  cerr (snd (run f held)) = [] /\
  (forall p, ~ In (Assign_outputImage p) (events f held)).
Proof.
  intros Hprint Hassign Hr.
  destruct (chain_raised c Hr) as (pre & post & Hc & Hq & Hraise & He & Ho & Hp).
  rewrite Hc in Hprint, Hassign.
  assert (Hnp : forall line, ~ In (Print line) pre)
    by (intro line; apply (stopped_before_last _ _ _ _ (Hprint line))).
  assert (Hna : forall p, ~ In (Assign_outputImage p) pre)
    by (intro p; apply (stopped_before_last _ _ _ _ (Hassign p))).
  split; [exact Hraise|]. split; [now exists pre|].
  split; [rewrite Ho; now apply assigned_unchanged|].
  split; [rewrite Hp; now apply printed_nil|].
  intros p Hin. rewrite He in Hin. apply in_app_or in Hin.
  destruct Hin as [Hin|[Hin|[]]]; [now apply (Hna p) | discriminate Hin].
Qed.

End MoreChainRuns.

Lemma not_ITK_method (method : Z) :
  ~ In method [ITK_NEAREST_NEIGHBOR; ITK_LINEAR; ITK_WINDOWED_SINC] ->
  is_ITK_method method = false.
Proof.
  intro H. unfold is_ITK_method.
  destruct (Z.eqb_spec method ITK_NEAREST_NEIGHBOR) as [->|_];
    [exfalso; apply H; in_list|].
  destruct (Z.eqb_spec method ITK_LINEAR) as [->|_];
    [exfalso; apply H; in_list|].
  destruct (Z.eqb_spec method ITK_WINDOWED_SINC) as [->|_];
    [exfalso; apply H; in_list|].
  reflexivity.
Qed.

Lemma not_kernel_method (method : Z) :
  ~ In method [VTK_GAUSSIAN_KERNEL; VTK_LINEAR_KERNEL; VTK_SHEPARD_KERNEL;
               VTK_VORONOI_KERNEL] ->
  is_kernel_method method = false.
Proof.
  intro H. destruct (is_kernel_method method) eqn:Hk; [|reflexivity].
  exfalso. now apply H, kernel_methods.
Qed.

Section Failures.

Variable raises : Call -> bool.
Variables (inputImage : Pointer) (size : SizeType) (spacing : SpacingType)
  (origin : PointType) (direction : DirectionType)
  (CLPProcessInformation : Pointer).

Let SCR (methodString : string) : Function :=
  ScanConversionResampling raises inputImage size spacing origin direction
    methodString CLPProcessInformation.
Let ITK (method : Z) : Function :=
  ITKScanConversionResampling raises inputImage size spacing origin
    direction method CLPProcessInformation.
Let probe : Function :=
  VTKProbeFilterResampling raises inputImage size spacing origin
    CLPProcessInformation.
Let point (method : Z) : Function :=
  VTKPointInterpolatorResampling raises inputImage size spacing origin
    method CLPProcessInformation.

Lemma ITK_chain_final (method : Z) :
  let chain := ITK_chain inputImage size spacing origin direction
                 CLPProcessInformation method in
  (forall line, final (Print line) chain) /\
  (forall p, final (Assign_outputImage p) chain).
Proof.
  unfold ITK_chain. destruct (is_ITK_method method); split; intro; walk_final.
Qed.

Lemma probe_chain_final :
  let chain := probe_chain inputImage size spacing origin
                 CLPProcessInformation in
  (forall line, final (Print line) chain) /\
  (forall p, final (Assign_outputImage p) chain).
Proof. split; intro; walk_final. Qed.

Lemma point_chain_final (method : Z) :
  let chain := point_chain inputImage size spacing origin
                 CLPProcessInformation method in
  (forall line, final (Print line) chain) /\
  (forall p, final (Assign_outputImage p) chain).
Proof.
  destruct (is_kernel_method method) eqn:Hk.
  - destruct (kernel_methods method Hk) as [<-|[<-|[<-|[<-|[]]]]];
      split; intro; walk_final.
  - unfold point_chain. rewrite Hk. split; intro; walk_final.
Qed.

(** X1: called with a method that is none of its three, the ITK adapter
    has already constructed and configured the resampler when it finds
    out: it makes those six calls at most, gives the resampler no
    interpolator and does not update it, leaves [outputImage] alone, and
    when it returns, it returns [EXIT_FAILURE] having printed its one
    line.  It returns as soon as the six calls complete. *)
Theorem ITK_unsupported_method (method : Z) (held : Pointer) :
  ~ In method [ITK_NEAREST_NEIGHBOR; ITK_LINEAR; ITK_WINDOWED_SINC] ->
  let f := ITK method in
  let setup := resampler_setup inputImage size spacing origin direction in
  let line :=
    "Unsupported resampling method in ITKScanConversionResampling" in
  only_calls_of setup (events f held) /\
  (forall p, ~ In (Toolkit (Invoke resampler (SetInterpolator p)))
               (events f held)) /\
  ~ In (Toolkit (Invoke resampler Update)) (events f held) /\
  outputImage (snd (run f held)) = held /\
  (forall rc, result f held = Returned rc ->
     rc = EXIT_FAILURE /\
     events f held = setup ++ [Print line] /\
     cerr (snd (run f held)) = [line]) /\
  (quiet raises setup -> result f held = Returned EXIT_FAILURE).
Proof.
  intros Hm f setup line.
  pose proof (ITK_run raises inputImage size spacing origin direction
                CLPProcessInformation method held) as Hrun.
  fold (ITK method) f in Hrun.
  unfold ITK_chain, ITK_rc in Hrun.
  rewrite (not_ITK_method method Hm) in Hrun. fold setup line in Hrun.
  assert (Hcalls : only_calls_of setup (events f held)).
  { intros c Hc. apply (chain_In _ _ _ _ _ Hrun) in Hc.
    apply in_app_or in Hc. destruct Hc as [Hc|[Hc|[]]];
      [exact Hc | discriminate Hc]. }
  split; [exact Hcalls|]. split; [|split; [|split; [|split]]].
  - intros p Hp. apply Hcalls in Hp. revert Hp. not_in_list.
  - intro Hp. apply Hcalls in Hp. revert Hp. not_in_list.
  - destruct (chain_outputImage _ _ _ _ _ Hrun) as [Ho|(_ & _ & Ho)];
      [intro p; walk_final | exact Ho | rewrite Ho; reflexivity].
  - intros rc Hr.
    destruct (chain_returned _ _ _ _ _ Hrun rc Hr) as (-> & _ & He & _).
    split; [reflexivity|]. split; [exact He|].
    rewrite (chain_cerr _ _ _ _ _ Hrun), He. reflexivity.
  - intro Hq. apply (chain_quiet _ _ _ _ _ Hrun).
    intros c Hc. apply Hq.
    apply in_app_or in Hc. destruct Hc as [Hc|[Hc|[]]];
      [exact Hc | discriminate Hc].
Qed.

(** X2: called with a method that is none of the four kernels, the
    point-interpolator adapter finds out only after lines 186-210: the
    input has been converted and the grid, the scalars and the point
    interpolator set up.  It makes those calls at most, constructs no
    kernel, does not update the point interpolator, leaves [outputImage]
    alone, and when it returns, it returns [EXIT_FAILURE] having printed
    the one line that ends in the method's number.  It returns as soon as
    those calls complete. *)
Theorem point_unexpected_kernel (method : Z) (held : Pointer) :
  ~ In method [VTK_GAUSSIAN_KERNEL; VTK_LINEAR_KERNEL; VTK_SHEPARD_KERNEL;
               VTK_VORONOI_KERNEL] ->
  let f := point method in
  let setup :=
    conversion_steps inputImage CLPProcessInformation ++
    pointInterpolator_setup size spacing origin in
  let line := ("Unexpected interpolation kernel: " ++ decimal method)%string in
  only_calls_of setup (events f held) /\
  (forall p, ~ In (Toolkit (Invoke pointInterpolator (SetKernel p)))
               (events f held)) /\
  ~ In (Toolkit (Invoke pointInterpolator Update)) (events f held) /\
  outputImage (snd (run f held)) = held /\
  (forall rc, result f held = Returned rc ->
     rc = EXIT_FAILURE /\
     events f held = setup ++ [Print line] /\
     In (Toolkit (Invoke conversionFilter Update)) (events f held) /\
     cerr (snd (run f held)) = [line]) /\
  (quiet raises setup -> result f held = Returned EXIT_FAILURE).
Proof.
  intros Hm f setup line.
  pose proof (point_run raises inputImage size spacing origin
                CLPProcessInformation method held) as Hrun.
  fold (point method) f in Hrun.
  unfold point_chain, point_rc in Hrun.
  rewrite (not_kernel_method method Hm) in Hrun.
  rewrite app_assoc in Hrun. fold setup line in Hrun.
  assert (Hcalls : only_calls_of setup (events f held)).
  { intros c Hc. apply (chain_In _ _ _ _ _ Hrun) in Hc.
    apply in_app_or in Hc. destruct Hc as [Hc|[Hc|[]]];
      [exact Hc | discriminate Hc]. }
  split; [exact Hcalls|]. split; [|split; [|split; [|split]]].
  - intros p Hp. apply Hcalls in Hp. revert Hp. not_in_list.
  - intro Hp. apply Hcalls in Hp. revert Hp. not_in_list.
  - destruct (chain_outputImage _ _ _ _ _ Hrun) as [Ho|(_ & _ & Ho)];
      [intro p; walk_final | exact Ho | rewrite Ho; reflexivity].
  - intros rc Hr.
    destruct (chain_returned _ _ _ _ _ Hrun rc Hr) as (-> & _ & He & _).
    split; [reflexivity|]. split; [exact He|]. split.
    + rewrite He. in_list.
    + rewrite (chain_cerr _ _ _ _ _ Hrun), He. reflexivity.
  - intro Hq. apply (chain_quiet _ _ _ _ _ Hrun).
    intros c Hc. apply Hq.
    apply in_app_or in Hc. destruct Hc as [Hc|[Hc|[]]];
      [exact Hc | discriminate Hc].
Qed.

End Failures.

Section ChainOutcome.

Variable raises : Call -> bool.
Variables (f : Function) (chain : list Event) (rc : Z) (held : Pointer).

Hypothesis f_straight :
  run f held = run (body (straight raises chain rc)) held.

(** A function whose chain assigns last either returns, every call
    completed, or raises with [outputImage] as it was. *)
Lemma chain_outcome :
  (forall p, final (Assign_outputImage p) chain) ->
  (result f held = Returned rc /\
   outputImage (snd (run f held)) = assigned chain held /\
   (forall c, In (Toolkit c) (events f held) -> raises c = false))
  \/
  (exists c, result f held = Raised c /\ raises c = true /\
             outputImage (snd (run f held)) = held).
Proof.
  intro Hlast.
  destruct (chain_cases _ _ _ _ _ f_straight)
    as [(Hq & Hr & He & Ho)
       | (pre & c & post & Hc & _ & Hraise & Hr & _ & Ho)].
  - left. rewrite He. now repeat split.
  - right. exists c. repeat split; trivial.
    rewrite Ho. apply assigned_unchanged. rewrite Hc in Hlast.
    exact (stopped_before_final _ _ _ Hlast).
Qed.

End ChainOutcome.

Section Outcomes.

Variable raises : Call -> bool.
Variables (inputImage : Pointer) (size : SizeType) (spacing : SpacingType)
  (origin : PointType) (direction : DirectionType)
  (CLPProcessInformation : Pointer).

Let SCR (methodString : string) : Function :=
  ScanConversionResampling raises inputImage size spacing origin direction
    methodString CLPProcessInformation.
Let ITK (method : Z) : Function :=
  ITKScanConversionResampling raises inputImage size spacing origin
    direction method CLPProcessInformation.
Let probe : Function :=
  VTKProbeFilterResampling raises inputImage size spacing origin
    CLPProcessInformation.
Let point (method : Z) : Function :=
  VTKPointInterpolatorResampling raises inputImage size spacing origin
    method CLPProcessInformation.

Lemma adapter_raised (f : Function) (method : Z) (held : Pointer) (c : Call) :
  In f [ ITK method; probe; point method ] ->
  result f held = Raised c ->
  raises c = true /\
  (exists pre, events f held = pre ++ [Toolkit c] /\ quiet raises pre) /\
  outputImage (snd (run f held)) = held /\
  cerr (snd (run f held)) = [] /\
  (forall p, ~ In (Assign_outputImage p) (events f held)).
Proof.
  intros [<-|[<-|[<-|[]]]] Hr; unfold ITK, probe, point in *.
  - destruct (ITK_chain_final inputImage size spacing origin direction
                CLPProcessInformation method) as [Hp Ha].
    exact (chain_raised_clean _ _ _ _ _ (ITK_run _ _ _ _ _ _ _ _ _) c Hp Ha Hr).
  - destruct (probe_chain_final inputImage size spacing origin
                CLPProcessInformation) as [Hp Ha].
    exact (chain_raised_clean _ _ _ _ _ (probe_run _ _ _ _ _ _ _) c Hp Ha Hr).
  - destruct (point_chain_final inputImage size spacing origin
                CLPProcessInformation method) as [Hp Ha].
    exact (chain_raised_clean _ _ _ _ _ (point_run _ _ _ _ _ _ _ _) c Hp Ha Hr).
Qed.

(** X3: when a toolkit call raises in the dispatcher or in one of the
    three adapters, the function raises that call's exception at once:
    the call is the last one made and every call before it completed,
    nothing was printed, and [outputImage] was not assigned. *)
Theorem exception_leaves_outputImage
  (f : Function) (method : Z) (methodString : string) (held : Pointer)
  (c : Call) :
  In f [ ITK method; probe; point method; SCR methodString ] ->
  result f held = Raised c ->
  raises c = true /\
  (exists pre, events f held = pre ++ [Toolkit c] /\ quiet raises pre) /\
  outputImage (snd (run f held)) = held /\
  cerr (snd (run f held)) = [] /\
  (forall p, ~ In (Assign_outputImage p) (events f held)).
Proof.
  intros [<-|[<-|[<-|[<-|[]]]]] Hr.
  1: apply (adapter_raised _ method); [now left | exact Hr].
  1: apply (adapter_raised _ method); [right; now left | exact Hr].
  1: apply (adapter_raised _ method); [right; right; now left | exact Hr].
  revert Hr. unfold result, events, SCR. rewrite dispatch_run.
  unfold adapter_for.
  destruct (method_of_range methodString)
    as [H|[H|[H|[H|[H|[H|[H|[H|[]]]]]]]]]; rewrite <- H; simpl; intro Hr.
  1: apply (adapter_raised (ITK ITK_NEAREST_NEIGHBOR) ITK_NEAREST_NEIGHBOR);
    [now left | exact Hr].
  1: apply (adapter_raised (ITK ITK_LINEAR) ITK_LINEAR);
    [now left | exact Hr].
  1: apply (adapter_raised (ITK ITK_WINDOWED_SINC) ITK_WINDOWED_SINC);
    [now left | exact Hr].
  1: apply (adapter_raised probe VTK_PROBE_FILTER);
    [right; now left | exact Hr].
  1: apply (adapter_raised (point VTK_GAUSSIAN_KERNEL) VTK_GAUSSIAN_KERNEL);
    [right; right; now left | exact Hr].
  1: apply (adapter_raised (point VTK_LINEAR_KERNEL) VTK_LINEAR_KERNEL);
    [right; right; now left | exact Hr].
  1: apply (adapter_raised (point VTK_SHEPARD_KERNEL) VTK_SHEPARD_KERNEL);
    [right; right; now left | exact Hr].
  apply (adapter_raised (point VTK_VORONOI_KERNEL) VTK_VORONOI_KERNEL);
    [right; right; now left | exact Hr].
Qed.

End Outcomes.

Section DispatcherOutcome.

Variable raises : Call -> bool.
Variables (inputImage : Pointer) (size : SizeType) (spacing : SpacingType)
  (origin : PointType) (direction : DirectionType)
  (CLPProcessInformation : Pointer).

Let SCR (methodString : string) : Function :=
  ScanConversionResampling raises inputImage size spacing origin direction
    methodString CLPProcessInformation.

(** X4: whatever the method name, the dispatcher ends in one of two
    ways.  Either it returns [EXIT_SUCCESS], every toolkit call it made
    completed and [outputImage] is the resampler's output (the ITK names
    and the names that are none of the eight) or the new image [output]
    (the VTK names); or a toolkit call raised, and [outputImage] is as
    the caller left it. *)
Theorem dispatcher_outcome (methodString : string) (held : Pointer) :
  let f := SCR methodString in
  (result f held = Returned EXIT_SUCCESS /\
   outputImage (snd (run f held))
   = (if is_ITK_method (method_of methodString)
      then GetOutput resampler else Local output) /\
   (forall c, In (Toolkit c) (events f held) -> raises c = false))
  \/
  (exists c, result f held = Raised c /\ raises c = true /\
             outputImage (snd (run f held)) = held).
Proof.
  intro f. unfold f, result, events, SCR. rewrite dispatch_run.
  unfold adapter_for.
  assert (HITK : forall m,
            In m [ITK_NEAREST_NEIGHBOR; ITK_LINEAR; ITK_WINDOWED_SINC] ->
            ITK_rc m = EXIT_SUCCESS /\
            assigned (ITK_chain inputImage size spacing origin direction
                        CLPProcessInformation m) held = GetOutput resampler).
  { intros m [<-|[<-|[<-|[]]]]; now split. }
  assert (Hpoint : forall m,
            In m [VTK_GAUSSIAN_KERNEL; VTK_LINEAR_KERNEL; VTK_SHEPARD_KERNEL;
                  VTK_VORONOI_KERNEL] ->
            point_rc m = EXIT_SUCCESS /\
            assigned (point_chain inputImage size spacing origin
                        CLPProcessInformation m) held = Local output).
  { intros m [<-|[<-|[<-|[<-|[]]]]]; now split. }
  set (m := method_of methodString).
  destruct (method_of_range methodString)
    as [H|[H|[H|[H|[H|[H|[H|[H|[]]]]]]]]]; fold m in H.
  1-3: destruct (HITK m) as [Hrc Ha]; [rewrite <- H; in_list|];
       destruct (chain_outcome _ _ _ _ _
                   (ITK_run raises inputImage size spacing origin direction
                      CLPProcessInformation m held)
                   (proj2 (ITK_chain_final inputImage size spacing origin
                             direction CLPProcessInformation m)))
         as [(Hr & Ho & Hq)|Hraised];
       rewrite <- H in *; simpl; [left | now right];
       unfold result, events in Hr, Hq; rewrite Hr, Ho, Hrc, Ha;
       now repeat split.
  1: destruct (chain_outcome _ _ _ _ _
                 (probe_run raises inputImage size spacing origin
                    CLPProcessInformation held)
                 (proj2 (probe_chain_final inputImage size spacing origin
                           CLPProcessInformation)))
       as [(Hr & Ho & Hq)|Hraised];
     rewrite <- H in *; simpl; [left | now right];
     unfold result, events in Hr, Hq; rewrite Hr, Ho; now repeat split.
  all: destruct (Hpoint m) as [Hrc Ha]; [rewrite <- H; in_list|];
       destruct (chain_outcome _ _ _ _ _
                   (point_run raises inputImage size spacing origin
                      CLPProcessInformation m held)
                   (proj2 (point_chain_final inputImage size spacing origin
                             CLPProcessInformation m)))
         as [(Hr & Ho & Hq)|Hraised];
       rewrite <- H in *; simpl; [left | now right];
       unfold result, events in Hr, Hq; rewrite Hr, Ho, Hrc, Ha;
       now repeat split.
Qed.

End DispatcherOutcome.

(* ================================================================= *)
(** ** The VTK pipelines *)

Section Pipelines.

Variable raises : Call -> bool.
Variables (inputImage : Pointer) (size : SizeType) (spacing : SpacingType)
  (origin : PointType) (CLPProcessInformation : Pointer).

Let probe : Function :=
  VTKProbeFilterResampling raises inputImage size spacing origin
    CLPProcessInformation.
Let point (method : Z) : Function :=
  VTKPointInterpolatorResampling raises inputImage size spacing origin
    method CLPProcessInformation.

(** X5: in the probe-filter adapter every stage is fed before it runs and
    runs before its consumer reads it: the conversion filter is updated
    before the probe filter takes its output as source, the grid has its
    geometry and bounds before it becomes the probe filter's input, the
    probe filter is updated before the VTK-to-ITK filter takes its
    output, and that filter before the new image takes its region, is
    allocated, copied into and assigned.  Unlike the point-interpolator
    adapter, this one casts nothing and copies no image information to
    the new image.  It prints nothing, returns only [EXIT_SUCCESS] and
    then has assigned [output]; it returns when no toolkit call raises. *)
Theorem probe_pipeline (held : Pointer) :
  let t := events probe held in
  let ran p m := Toolkit (Invoke p m) in
  let copy :=
    Toolkit (ImageAlgorithm_Copy (GetOutput vtkToITKFilter) output
               (GetLargestPossibleRegion output)
               (GetLargestPossibleRegion output)) in
  Forall (fun ab => precedes (fst ab) (snd ab) t)
    [ (ran conversionFilter (SetInput inputImage),
       ran conversionFilter Update);
      (ran conversionFilter Update,
       ran probeFilter (SetSourceData (GetOutput conversionFilter)));
      (ran grid (SetDimensions (as_int (elem0 size)) (as_int (elem1 size))
                   (as_int (elem2 size))),
       ran grid ComputeBounds);
      (ran grid (SetSpacing (elem0 spacing) (elem1 spacing) (elem2 spacing)),
       ran grid ComputeBounds);
      (ran grid (SetOrigin (elem0 origin) (elem1 origin) (elem2 origin)),
       ran grid ComputeBounds);
      (ran grid ComputeBounds, ran probeFilter (SetInputData grid));
      (ran probeFilter (SetSourceData (GetOutput conversionFilter)),
       ran probeFilter Update);
      (ran probeFilter (SetInputData grid), ran probeFilter Update);
      (ran probeFilter Update,
       ran vtkToITKFilter (SetInput (GetImageDataOutput probeFilter)));
      (ran vtkToITKFilter (SetInput (GetImageDataOutput probeFilter)),
       ran vtkToITKFilter Update);
      (ran vtkToITKFilter Update,
       ran output
         (SetRegions (GetLargestPossibleRegion (GetOutput vtkToITKFilter))));
      (ran output
         (SetRegions (GetLargestPossibleRegion (GetOutput vtkToITKFilter))),
       ran output Allocate);
      (ran output Allocate, copy);
      (copy, Assign_outputImage output) ] /\
  (forall p q, ~ In (ran p (CopyInformation q)) t) /\
  (forall o from to, ~ In (Toolkit (New o (CastImageFilter from to))) t) /\
  (forall line, ~ In (Print line) t) /\
  (forall rc, result probe held = Returned rc ->
     rc = EXIT_SUCCESS /\ outputImage (snd (run probe held)) = Local output /\
     In copy t) /\
  ((forall c, raises c = false) -> result probe held = Returned EXIT_SUCCESS).
Proof.
  intros t ran copy.
  pose proof (probe_run raises inputImage size spacing origin
                CLPProcessInformation held) as Hrun.
  fold probe in Hrun.
  split; [|split; [|split; [|split; [|split]]]].
  - repeat constructor; simpl fst; simpl snd;
      apply (chain_precedes _ _ _ _ _ Hrun); walk_precedes.
  - intros p q H. apply (chain_In _ _ _ _ _ Hrun) in H. which_in H.
  - intros o from to H. apply (chain_In _ _ _ _ _ Hrun) in H. which_in H.
  - intros line H. apply (chain_In _ _ _ _ _ Hrun) in H. which_in H.
  - intros rc Hr.
    destruct (chain_returned _ _ _ _ _ Hrun rc Hr) as (-> & _ & He & Ho).
    split; [reflexivity|]. split; [rewrite Ho; reflexivity|].
    unfold t. rewrite He. in_list.
  - intro Hnever. now destruct (chain_never _ _ _ _ _ Hrun Hnever).
Qed.

(** X6: for each of the four kernel methods every stage of the
    point-interpolator adapter is fed before it runs and runs before its
    consumer reads it: the converted grid has its bounds before it
    becomes the source, the target grid has its bounds and its scalars
    array before it becomes the input, the point interpolator has source,
    input and kernel before it is updated, the VTK-to-ITK filter takes
    the interpolator's output after that update and is updated before the
    cast, and the cast before the new image takes its region and
    information, is allocated, copied into and assigned. *)
Theorem point_pipeline (method : Z) (held : Pointer) :
  In method [ VTK_GAUSSIAN_KERNEL; VTK_LINEAR_KERNEL; VTK_SHEPARD_KERNEL;
              VTK_VORONOI_KERNEL ] ->
  let t := events (point method) held in
  let ran p m := Toolkit (Invoke p m) in
  let kernel := kernel_object method in
  let copy :=
    Toolkit (ImageAlgorithm_Copy (GetOutput caster) output
               (GetLargestPossibleRegion output)
               (GetLargestPossibleRegion output)) in
  Forall (fun ab => precedes (fst ab) (snd ab) t)
    [ (ran conversionFilter Update,
       ran (GetOutput conversionFilter) ComputeBounds);
      (ran (GetOutput conversionFilter) ComputeBounds,
       ran pointInterpolator (SetSourceData (GetOutput conversionFilter)));
      (ran grid ComputeBounds, ran pointInterpolator (SetInputData grid));
      (ran scalars
         (AllocateValues
            (as_vtkIdType
               (mul64 (mul64 (elem0 size) (elem1 size)) (elem2 size)))),
       ran (GetPointData grid) (SetScalars scalars));
      (ran (GetPointData grid) (SetScalars scalars),
       ran pointInterpolator (SetInputData grid));
      (ran pointInterpolator (SetSourceData (GetOutput conversionFilter)),
       ran pointInterpolator Update);
      (ran pointInterpolator (SetInputData grid),
       ran pointInterpolator Update);
      (ran pointInterpolator (SetKernel kernel),
       ran pointInterpolator Update);
      (ran pointInterpolator Update,
       ran vtkToITKFilter (SetInput (GetImageDataOutput pointInterpolator)));
      (ran vtkToITKFilter (SetInput (GetImageDataOutput pointInterpolator)),
       ran vtkToITKFilter Update);
      (ran vtkToITKFilter Update,
       ran caster (SetInput (GetOutput vtkToITKFilter)));
      (ran caster (SetInput (GetOutput vtkToITKFilter)), ran caster Update);
      (ran caster Update,
       ran output (SetRegions (GetLargestPossibleRegion (GetOutput caster))));
      (ran caster Update, ran output (CopyInformation (GetOutput caster)));
      (ran output (SetRegions (GetLargestPossibleRegion (GetOutput caster))),
       ran output Allocate);
      (ran output (CopyInformation (GetOutput caster)), ran output Allocate);
      (ran output Allocate, copy);
      (copy, Assign_outputImage output) ] /\
  ((forall c, raises c = false) -> In (Assign_outputImage output) t).
Proof.
  intros Hm t ran kernel copy.
  assert (Hrun : run (point method) held
                 = run (body (straight raises
                                (point_chain inputImage size spacing origin
                                   CLPProcessInformation method)
                                EXIT_SUCCESS)) held).
  { unfold point. rewrite point_run.
    now destruct Hm as [<-|[<-|[<-|[<-|[]]]]]. }
  split.
  - destruct Hm as [<-|[<-|[<-|[<-|[]]]]];
      subst kernel; simpl kernel_object;
      repeat constructor; simpl fst; simpl snd;
      apply (chain_precedes _ _ _ _ _ Hrun); walk_precedes.
  - intro Hnever.
    destruct (chain_never _ _ _ _ _ Hrun Hnever) as (_ & He & _).
    unfold t. rewrite He.
    destruct Hm as [<-|[<-|[<-|[<-|[]]]]]; in_list.
Qed.

(** X7: for each of the four kernel methods the kernel, which the adapter
    owns, is deleted at most once, only the kernel of the method, and
    only after the point interpolator and the VTK-to-ITK filter were
    updated without raising.  So when the update of the point
    interpolator is the call that raises, the kernel has been constructed
    and is never deleted. *)
Theorem kernel_deleted_after_use (method : Z) (held : Pointer) :
  In method [ VTK_GAUSSIAN_KERNEL; VTK_LINEAR_KERNEL; VTK_SHEPARD_KERNEL;
              VTK_VORONOI_KERNEL ] ->
  let t := events (point method) held in
  let kernel := kernel_object method in
  let construct := Toolkit (New kernel (kernel_class method)) in
  let update := Invoke pointInterpolator Update in
  let delete := Toolkit (Invoke kernel Delete) in
  (forall p, In (Toolkit (Invoke p Delete)) t ->
     p = Local kernel /\
     raises update = false /\
     raises (Invoke vtkToITKFilter Update) = false) /\
  precedes construct delete t /\
  precedes (Toolkit update) delete t /\
  precedes (Toolkit (Invoke vtkToITKFilter Update)) delete t /\
  at_most_once delete t /\
  at_most_once construct t /\
  (raises update = true ->
   (forall c, raises c = true -> c = update) ->
   result (point method) held = Raised update /\
   In construct t /\ ~ In delete t).
Proof.
  intros Hm t kernel construct update delete.
  assert (Hrun : run (point method) held
                 = run (body (straight raises
                                (point_chain inputImage size spacing origin
                                   CLPProcessInformation method)
                                EXIT_SUCCESS)) held).
  { unfold point. rewrite point_run.
    now destruct Hm as [<-|[<-|[<-|[<-|[]]]]]. }
  assert (Horder :
    precedes construct delete
      (point_chain inputImage size spacing origin CLPProcessInformation
         method) /\
    precedes (Toolkit update) delete
      (point_chain inputImage size spacing origin CLPProcessInformation
         method) /\
    precedes (Toolkit (Invoke vtkToITKFilter Update)) delete
      (point_chain inputImage size spacing origin CLPProcessInformation
         method) /\
    precedes construct (Toolkit update)
      (point_chain inputImage size spacing origin CLPProcessInformation
         method)).
  { destruct Hm as [<-|[<-|[<-|[<-|[]]]]];
      subst kernel construct delete; simpl kernel_object; simpl kernel_class;
      repeat split; walk_precedes. }
  destruct Horder as (Hcd & Hud & Hvd & Hcu).
  assert (Hdel : forall p, In (Toolkit (Invoke p Delete)) t ->
                           p = Local kernel).
  { intros p H. apply (chain_In _ _ _ _ _ Hrun) in H.
    destruct Hm as [<-|[<-|[<-|[<-|[]]]]]; which_in H;
      now injection H as <-. }
  split; [|split; [|split; [|split; [|split; [|split]]]]].
  - intros p H. pose proof (Hdel p H) as ->. fold delete in H.
    split; [reflexivity|]. split.
    + exact (chain_completed _ _ _ _ _ Hrun _ _ Hud H).
    + exact (chain_completed _ _ _ _ _ Hrun _ _ Hvd H).
  - exact (chain_precedes _ _ _ _ _ Hrun _ _ Hcd).
  - exact (chain_precedes _ _ _ _ _ Hrun _ _ Hud).
  - exact (chain_precedes _ _ _ _ _ Hrun _ _ Hvd).
  - apply (chain_at_most_once _ _ _ _ _ Hrun).
    destruct Hm as [<-|[<-|[<-|[<-|[]]]]];
      subst delete kernel; simpl kernel_object; walk_once.
  - apply (chain_at_most_once _ _ _ _ _ Hrun).
    destruct Hm as [<-|[<-|[<-|[<-|[]]]]];
      subst construct kernel; simpl kernel_object; simpl kernel_class;
      walk_once.
  - intros Hraise Honly.
    destruct (chain_cases _ _ _ _ _ Hrun)
      as [(Hq & _) | (pre & c & post & Hc & _ & Hrc & Hr & He & _)].
    + exfalso. rewrite (Hq update) in Hraise; [discriminate Hraise|].
      destruct Hm as [<-|[<-|[<-|[<-|[]]]]]; in_list.
    + pose proof (Honly c Hrc) as ->.
      split; [exact Hr|]. split.
      * unfold t. rewrite He. apply in_or_app. left.
        rewrite Hc in Hcu. exact (Hcu pre post eq_refl).
      * intro Hd. fold delete in Hd.
        pose proof (chain_completed _ _ _ _ _ Hrun _ _ Hud Hd) as Hno.
        rewrite Hno in Hraise. discriminate Hraise.
Qed.

End Pipelines.

(* ================================================================= *)
(** ** The kernel radius as a binary64 value *)

Lemma SFltb_irrefl (a : spec_float) : SFltb a a = false.
Proof.
  unfold SFltb, SFcompare.
  destruct a as [s|s| |s m e]; try destruct s; trivial;
    rewrite Z.compare_refl, Pos.compare_cont_refl; reflexivity.
Qed.

(** The order of finite values of one sign: exponents first, then
    mantissas. *)
Lemma lex_compare_Lt (e1 e2 : Z) (m1 m2 : positive) :
  match Z.compare e1 e2 with
  | Lt => Lt
  | Gt => Gt
  | Eq => Pos.compare_cont Eq m1 m2
  end = Lt <-> e1 < e2 \/ e1 = e2 /\ (m1 < m2)%positive.
Proof.
  change (Pos.compare_cont Eq m1 m2) with (Pos.compare m1 m2).
  destruct (Z.compare_spec e1 e2); destruct (Pos.compare_spec m1 m2);
    split; intros; try discriminate; try reflexivity; try lia.
Qed.

Lemma lex_compare_Gt (e1 e2 : Z) (m1 m2 : positive) :
  match Z.compare e1 e2 with
  | Lt => Gt
  | Gt => Lt
  | Eq => CompOpp (Pos.compare_cont Eq m1 m2)
  end = Lt <-> e2 < e1 \/ e1 = e2 /\ (m2 < m1)%positive.
Proof.
  change (Pos.compare_cont Eq m1 m2) with (Pos.compare m1 m2).
  destruct (Z.compare_spec e1 e2); destruct (Pos.compare_spec m1 m2);
    simpl; split; intros; try discriminate; try reflexivity; try lia.
Qed.

Lemma SFltb_trans (a b c : spec_float) :
  SFltb a b = true -> SFltb b c = true -> SFltb a c = true.
Proof.
  unfold SFltb, SFcompare.
  destruct a as [sa|sa| |sa ma ea]; destruct b as [sb|sb| |sb mb eb];
    destruct c as [sc|sc| |sc mc ec];
    try destruct sa; try destruct sb; try destruct sc;
    try discriminate; try reflexivity; intros Hab Hbc.
  all: match goal with
       | |- match ?x with _ => _ end = true =>
           assert (H : x = Lt); [|now rewrite H]
       end.
  all: match type of Hab with
       | match ?x with _ => _ end = true =>
           assert (Hab' : x = Lt) by (destruct x; trivial; discriminate)
       end.
  all: match type of Hbc with
       | match ?x with _ => _ end = true =>
           assert (Hbc' : x = Lt) by (destruct x; trivial; discriminate)
       end.
  - apply lex_compare_Gt. apply lex_compare_Gt in Hab', Hbc'. lia.
  - apply lex_compare_Lt. apply lex_compare_Lt in Hab', Hbc'. lia.
Qed.

Lemma Prim2SF_zero : Prim2SF 0%float = S754_zero false.
Proof. reflexivity. Qed.

Lemma leb_zero_not_negative (x : double) :
  PrimFloat.leb 0%float x = true <-> not_negative (Prim2SF x).
Proof.
  rewrite leb_spec, Prim2SF_zero. unfold SFleb, SFcompare, not_negative.
  destruct (Prim2SF x) as [s|s| |s m e]; try destruct s; simpl;
    intuition discriminate.
Qed.

Lemma SFltb_not_negative (a b : spec_float) :
  not_negative a -> SFltb a b = true -> not_negative b.
Proof.
  unfold SFltb, SFcompare, not_negative.
  destruct a as [sa|sa| |sa ma ea]; destruct b as [sb|sb| |sb mb eb];
    try destruct sa; try destruct sb; simpl; intuition discriminate.
Qed.

(** [std::max] keeps a value that is at least zero at least zero. *)
Lemma std_max_not_negative (a b : double) :
  PrimFloat.leb 0%float a = true ->
  PrimFloat.leb 0%float (std_max a b) = true.
Proof.
  intro Ha. unfold std_max. destruct (PrimFloat.ltb a b) eqn:Hlt; [|exact Ha].
  rewrite ltb_spec in Hlt. apply leb_zero_not_negative.
  apply leb_zero_not_negative in Ha. exact (SFltb_not_negative _ _ Ha Hlt).
Qed.

(** The result of [std::max] is below neither argument it was compared
    with, and stays above what its first argument was above. *)
Lemma std_max_not_below (a b : double) :
  PrimFloat.ltb (std_max a b) b = false.
Proof.
  unfold std_max. destruct (PrimFloat.ltb a b) eqn:Hlt; [|exact Hlt].
  rewrite ltb_spec. apply SFltb_irrefl.
Qed.

Lemma std_max_keeps_bound (a b s : double) :
  PrimFloat.ltb a s = false -> PrimFloat.ltb (std_max a b) s = false.
Proof.
  intro Ha. unfold std_max. destruct (PrimFloat.ltb a b) eqn:Hlt; [|exact Ha].
  destruct (PrimFloat.ltb b s) eqn:Hbs; [|reflexivity].
  rewrite ltb_spec in *. rewrite (SFltb_trans _ _ _ Hlt Hbs) in Ha.
  discriminate Ha.
Qed.

Lemma std_max_cases (a b : double) : std_max a b = a \/ std_max a b = b.
Proof. unfold std_max. destruct (PrimFloat.ltb a b); auto. Qed.

Lemma SFmul_not_negative (x y : spec_float) :
  not_negative x -> not_negative y ->
  SFltb (SF64mul x y) (S754_zero false) = false.
Proof.
  unfold not_negative, SF64mul, SFmul.
  destruct x as [sx|sx| |sx mx ex]; destruct y as [sy|sy| |sy my ey];
    try destruct sx; try destruct sy; intros Hx Hy;
    try contradiction; try reflexivity.
  unfold binary_round_aux.
  destruct (shr_fexp prec emax (Z.pos (mx * my)) (ex + ey) loc_Exact)
    as [mrs e'].
  destruct (shr_fexp prec emax _ e' loc_Exact) as [mrs' e''].
  destruct (shr_m mrs'); try reflexivity.
  destruct (Z.leb e'' (emax - prec)); reflexivity.
Qed.

Lemma scaled_not_negative (m : double) :
  PrimFloat.leb 0%float m = true ->
  PrimFloat.ltb (PrimFloat.mul 1.1%float m) 0%float = false.
Proof.
  intro Hm. rewrite ltb_spec, mul_spec, Prim2SF_zero.
  apply SFmul_not_negative.
  - vm_compute. exact I.
  - now apply leb_zero_not_negative.
Qed.

(** X8: whatever the three spacing components are, infinities and NaN
    included, the loop of lines 214-218 ends with a value that is at
    least zero (so it is no NaN), that no component exceeds, and that is
    0.0 or one of the components: the maximum of 0.0 and the components
    that compare. *)
Theorem maxSpacing_is_maximum (spacing : SpacingType) :
  exists m,
    maxSpacing_loop spacing ImageDimension 0 0%float = Some m /\
    PrimFloat.leb 0%float m = true /\
    PrimFloat.ltb m (elem0 spacing) = false /\
    PrimFloat.ltb m (elem1 spacing) = false /\
    PrimFloat.ltb m (elem2 spacing) = false /\
    (m = 0%float \/ m = elem0 spacing \/ m = elem1 spacing \/
     m = elem2 spacing).
Proof.
  exists (maxSpacing spacing). split; [reflexivity|]. unfold maxSpacing.
  split; [|split; [|split; [|split]]].
  - do 3 apply std_max_not_negative. reflexivity.
  - do 2 apply std_max_keeps_bound. apply std_max_not_below.
  - apply std_max_keeps_bound, std_max_not_below.
  - apply std_max_not_below.
  - destruct (std_max_cases
                (std_max (std_max 0%float (elem0 spacing)) (elem1 spacing))
                (elem2 spacing)) as [-> | ->]; [|tauto].
    destruct (std_max_cases (std_max 0%float (elem0 spacing))
                (elem1 spacing)) as [-> | ->]; [|tauto].
    destruct (std_max_cases 0%float (elem0 spacing)) as [-> | ->]; tauto.
Qed.

(** The loop of lines 214-218 reads a component past the third exactly
    when it has an iteration left at an index beyond 2. *)
Lemma component_None (spacing : SpacingType) (ii : nat) :
  component spacing ii = None <-> (3 <= ii)%nat.
Proof.
  destruct ii as [|[|[|ii]]]; simpl; split; intro H;
    try discriminate H; try lia; reflexivity.
Qed.

(** X9: the loop of lines 214-218, run for [n] dimensions from index
    [ii], reads outside the three spacing components exactly when [n] is
    not zero and [ii + n] exceeds 3; for up to three dimensions from
    index 0 it has a value. *)
Theorem maxSpacing_loop_bounds (spacing : SpacingType) (n ii : nat)
  (acc : double) :
  maxSpacing_loop spacing n ii acc = None <-> (n <> 0 /\ 3 < ii + n)%nat.
Proof.
  revert ii acc; induction n as [|n IH]; intros ii acc; simpl.
  - split; [discriminate | intros [H _]; now elim H].
  - destruct (component spacing ii) as [s|] eqn:Hc.
    + rewrite IH.
      assert (Hii : (ii < 3)%nat).
      { destruct (Nat.lt_ge_cases ii 3) as [H|H]; [exact H|].
        apply (proj2 (component_None spacing ii)) in H.
        rewrite H in Hc. discriminate Hc. }
      split; [intros [Hn H]; lia|].
      intros [_ H]. split; [|lia]. destruct n; [lia | discriminate].
    + apply (proj1 (component_None spacing ii)) in Hc.
      split; [intros _; lia | reflexivity].
Qed.

Section RadiusAndScalars.

Variable raises : Call -> bool.
Variables (inputImage : Pointer) (size : SizeType) (spacing : SpacingType)
  (origin : PointType) (CLPProcessInformation : Pointer).

Let point (method : Z) : Function :=
  VTKPointInterpolatorResampling raises inputImage size spacing origin
    method CLPProcessInformation.

(** The events of the adapter are events of its chain, whatever the
    method. *)
Lemma point_In (method : Z) (held : Pointer) (e : Event) :
  In e (events (point method) held) ->
  In e (point_chain inputImage size spacing origin CLPProcessInformation
          method).
Proof.
  apply (chain_In _ _ _ _ _
           (point_run raises inputImage size spacing origin
              CLPProcessInformation method held)).
Qed.

(** X10: whatever the method and the spacing, NaN and infinities
    included, a radius the adapter hands to a kernel is not below zero. *)
Theorem radius_never_negative (method : Z) (held p : Pointer) (r : double) :
  In (Toolkit (Invoke p (SetRadius r))) (events (point method) held) ->
  PrimFloat.ltb r 0%float = false.
Proof.
  intro H. apply point_In in H.
  assert (Hr : r = radius spacing).
  { destruct (is_kernel_method method) eqn:Hk.
    - destruct (kernel_methods method Hk) as [<-|[<-|[<-|[<-|[]]]]];
        which_in H; now injection H as _ <-.
    - unfold point_chain in H. rewrite Hk in H. exfalso. which_in H. }
  rewrite Hr. unfold radius, maxSpacing.
  apply scaled_not_negative.
  do 3 apply std_max_not_negative. reflexivity.
Qed.

Lemma mul64_mul64 (a b c : Z) :
  mul64 (mul64 a b) c = (a * b * c) mod 2 ^ 64.
Proof.
  unfold mul64, wrap64. now rewrite Z.mul_mod_idemp_l.
Qed.

(** The signed reading of an unsigned 64-bit value. *)
Lemma as_vtkIdType_wrapped (q : Z) :
  0 <= q < 2 ^ 64 ->
  as_vtkIdType q = if q <? 2 ^ 63 then q else q - 2 ^ 64.
Proof.
  intro Hq. unfold as_vtkIdType.
  destruct (Z.ltb_spec q (2 ^ 63)) as [Hlt|Hge].
  - rewrite Z.mod_small; lia.
  - replace (q + 2 ^ 63) with (q - 2 ^ 63 + 1 * 2 ^ 64) by lia.
    rewrite Z.mod_add by lia. rewrite Z.mod_small; lia.
Qed.

(** X11: whatever the method, the only array the adapter sizes is
    [scalars], constructed before.  The count it asks for is the product
    of the three size components as [unsigned long] arithmetic gives it,
    read as the signed 64-bit [vtkIdType] of the parameter: it agrees
    with the product modulo 2^64, it is the product itself when that is
    below 2^63, zero when a component is zero, and negative exactly when
    the product reduced modulo 2^64 is 2^63 or more. *)
Theorem scalars_allocation (method : Z) (held p : Pointer) (n : Z) :
  In (Toolkit (Invoke p (AllocateValues n))) (events (point method) held) ->
  let product := elem0 size * elem1 size * elem2 size in
  p = Local scalars /\
  - 2 ^ 63 <= n < 2 ^ 63 /\
  (n - product) mod 2 ^ 64 = 0 /\
  (0 <= product < 2 ^ 63 -> n = product) /\
  (n < 0 <-> 2 ^ 63 <= product mod 2 ^ 64) /\
  (2 ^ 63 <= product mod 2 ^ 64 -> n = product mod 2 ^ 64 - 2 ^ 64) /\
  (elem0 size = 0 \/ elem1 size = 0 \/ elem2 size = 0 -> n = 0) /\
  precedes (Toolkit (New scalars vtkFloatArray))
    (Toolkit (Invoke p (AllocateValues n))) (events (point method) held).
Proof.
  intros H product.
  pose proof (point_run raises inputImage size spacing origin
                CLPProcessInformation method held) as Hrun.
  fold (point method) in Hrun.
  assert (Hpn : p = Local scalars /\
                n = as_vtkIdType
                      (mul64 (mul64 (elem0 size) (elem1 size)) (elem2 size))).
  { apply point_In in H.
    destruct (is_kernel_method method) eqn:Hk.
    - destruct (kernel_methods method Hk) as [<-|[<-|[<-|[<-|[]]]]];
        which_in H; now injection H as <- <-.
    - unfold point_chain in H. rewrite Hk in H.
      which_in H; now injection H as <- <-. }
  destruct Hpn as [-> Hn0]. pose proof Hn0 as Hn.
  rewrite mul64_mul64 in Hn. fold product in Hn.
  assert (Hq : 0 <= product mod 2 ^ 64 < 2 ^ 64)
    by (apply Z.mod_pos_bound; lia).
  rewrite (as_vtkIdType_wrapped _ Hq) in Hn.
  pose proof (Z.div_mod product (2 ^ 64)) as Hdiv.
  set (q := product mod 2 ^ 64) in *. set (d := product / 2 ^ 64) in *.
  assert (Hd : product = 2 ^ 64 * d + q) by (apply Hdiv; lia).
  clearbody q d.
  split; [reflexivity|].
  destruct (Z.ltb_spec q (2 ^ 63)) as [Hlt|Hge].
  - split; [lia|]. split.
    { replace (n - product) with (- d * 2 ^ 64) by lia. apply Z.mod_mul. lia. }
    split; [lia|]. split; [lia|]. split; [lia|]. split.
    + intro Hz. assert (product = 0) by (unfold product; nia). lia.
    + apply (chain_precedes _ _ _ _ _ Hrun).
      rewrite Hn0.
      destruct (is_kernel_method method) eqn:Hk.
      * destruct (kernel_methods method Hk) as [<-|[<-|[<-|[<-|[]]]]];
          walk_precedes.
      * unfold point_chain. rewrite Hk. walk_precedes.
  - split; [lia|]. split.
    { replace (n - product) with ((- d - 1) * 2 ^ 64) by lia.
      apply Z.mod_mul. lia. }
    split; [lia|]. split; [lia|]. split; [lia|]. split.
    + intro Hz. assert (product = 0) by (unfold product; nia). lia.
    + apply (chain_precedes _ _ _ _ _ Hrun).
      rewrite Hn0.
      destruct (is_kernel_method method) eqn:Hk.
      * destruct (kernel_methods method Hk) as [<-|[<-|[<-|[<-|[]]]]];
          walk_precedes.
      * unfold point_chain. rewrite Hk. walk_precedes.
Qed.

End RadiusAndScalars.

(** X12: the method names are matched exactly.  Each enumerator other
    than [ITK_LINEAR] is chosen by its own name and by no other string;
    [ITK_LINEAR] is chosen by its name and by every string that is none
    of the eight. *)
Theorem method_of_exact (methodString : string) :
  (method_of methodString = ITK_NEAREST_NEIGHBOR
   <-> methodString = "ITKNearestNeighbor") /\
  (method_of methodString = ITK_WINDOWED_SINC
   <-> methodString = "ITKWindowedSinc") /\
  (method_of methodString = VTK_PROBE_FILTER
   <-> methodString = "VTKProbeFilter") /\
  (method_of methodString = VTK_GAUSSIAN_KERNEL
   <-> methodString = "VTKGaussianKernel") /\
  (method_of methodString = VTK_LINEAR_KERNEL
   <-> methodString = "VTKLinearKernel") /\
  (method_of methodString = VTK_SHEPARD_KERNEL
   <-> methodString = "VTKShepardKernel") /\
  (method_of methodString = VTK_VORONOI_KERNEL
   <-> methodString = "VTKVoronoiKernel") /\
  (method_of methodString = ITK_LINEAR
   <-> methodString = "ITKLinear" \/ ~ In methodString recognized_names).
Proof.
  unfold method_of.
  destruct (String.eqb_spec methodString "ITKNearestNeighbor") as [->|N0].
  2: destruct (String.eqb_spec methodString "ITKLinear") as [->|N1].
  3: destruct (String.eqb_spec methodString "ITKWindowedSinc") as [->|N2].
  4: destruct (String.eqb_spec methodString "VTKProbeFilter") as [->|N3].
  5: destruct (String.eqb_spec methodString "VTKGaussianKernel") as [->|N4].
  6: destruct (String.eqb_spec methodString "VTKLinearKernel") as [->|N5].
  7: destruct (String.eqb_spec methodString "VTKShepardKernel") as [->|N6].
  8: destruct (String.eqb_spec methodString "VTKVoronoiKernel") as [->|N7].
  all: repeat split; intro H; try reflexivity; try discriminate H;
    try contradiction; try (now left).
  all: try (destruct H as [H|H]; [discriminate H | exfalso; apply H; in_list]).
  - right. simpl. intuition.
Qed.

(* ================================================================= *)
(** ** Concrete runs of the further properties *)

(** Decide [In a l] by evaluating [l]. *)
Ltac in_evaluated :=
  vm_compute; solve [ repeat first [ left; reflexivity | right ] ].

Lemma kernel_methods_Shepard :
  In VTK_SHEPARD_KERNEL
    [ VTK_GAUSSIAN_KERNEL; VTK_LINEAR_KERNEL; VTK_SHEPARD_KERNEL;
      VTK_VORONOI_KERNEL ].
Proof. right. right. left. reflexivity. Defined.

Lemma interpolation_fails_only (c : Call) :
  interpolation_fails c = true -> c = Invoke pointInterpolator Update.
Proof.
  destruct c as [o cl|p m|a b r1 r2]; try discriminate.
  destruct p as [n|o|o|o|o]; try discriminate.
  destruct o; try discriminate. destruct m; try discriminate. reflexivity.
Defined.

Lemma ITK_unsupported_method_witness :
  ~ In VTK_PROBE_FILTER [ITK_NEAREST_NEIGHBOR; ITK_LINEAR; ITK_WINDOWED_SINC]
  /\ result example_ITK_misuse (Held 0) = Returned EXIT_FAILURE.
Proof.
  assert (Hm : ~ In VTK_PROBE_FILTER
                 [ITK_NEAREST_NEIGHBOR; ITK_LINEAR; ITK_WINDOWED_SINC])
    by (intro H; which_in H).
  split; [exact Hm|].
  destruct (ITK_unsupported_method never (Held 1) example_size
              example_spacing example_origin identity_direction (Held 2)
              VTK_PROBE_FILTER (Held 0) Hm)
    as (_ & _ & _ & _ & _ & Hreturns).
  apply Hreturns. intros c _. reflexivity.
Defined.

Lemma point_unexpected_kernel_witness :
  ~ In ITK_LINEAR [ VTK_GAUSSIAN_KERNEL; VTK_LINEAR_KERNEL;
                    VTK_SHEPARD_KERNEL; VTK_VORONOI_KERNEL ]
  /\ cerr (snd (run example_point_misuse (Held 0)))
     = [ "Unexpected interpolation kernel: 1" ].
Proof.
  assert (Hm : ~ In ITK_LINEAR [ VTK_GAUSSIAN_KERNEL; VTK_LINEAR_KERNEL;
                                 VTK_SHEPARD_KERNEL; VTK_VORONOI_KERNEL ])
    by (intro H; which_in H).
  split; [exact Hm|].
  destruct (point_unexpected_kernel never (Held 1) example_size
              example_spacing example_origin (Held 2)
              ITK_LINEAR (Held 0) Hm)
    as (_ & _ & _ & _ & Hreturned & _).
  exact (proj2 (proj2 (proj2 (Hreturned EXIT_FAILURE eq_refl)))).
Defined.

Lemma exception_leaves_outputImage_witness :
  result example_failing_interpolation (Held 0)
  = Raised (Invoke pointInterpolator Update) /\
  outputImage (snd (run example_failing_interpolation (Held 0))) = Held 0.
Proof.
  assert (Hr : result example_failing_interpolation (Held 0)
               = Raised (Invoke pointInterpolator Update)) by reflexivity.
  split; [exact Hr|].
  destruct (exception_leaves_outputImage interpolation_fails (Held 1)
              example_size example_spacing example_origin identity_direction
              (Held 2) example_failing_interpolation VTK_SHEPARD_KERNEL
              "VTKShepardKernel" (Held 0) (Invoke pointInterpolator Update))
    as (_ & _ & Ho & _).
  - right. right. left. reflexivity.
  - exact Hr.
  - exact Ho.
Defined.

Lemma point_pipeline_witness :
  In VTK_SHEPARD_KERNEL
    [ VTK_GAUSSIAN_KERNEL; VTK_LINEAR_KERNEL; VTK_SHEPARD_KERNEL;
      VTK_VORONOI_KERNEL ] /\
  In (Assign_outputImage output)
    (events (VTKPointInterpolatorResampling never (Held 1) example_size
               example_spacing example_origin VTK_SHEPARD_KERNEL (Held 2))
       (Held 0)).
Proof.
  split; [exact kernel_methods_Shepard|].
  exact (proj2 (point_pipeline never (Held 1) example_size example_spacing
                  example_origin (Held 2) VTK_SHEPARD_KERNEL (Held 0)
                  kernel_methods_Shepard) never_raises).
Defined.

(** The kernel is constructed, the update of the point interpolator
    raises, and the kernel is not deleted. *)
Lemma kernel_deleted_after_use_witness :
  In VTK_SHEPARD_KERNEL
    [ VTK_GAUSSIAN_KERNEL; VTK_LINEAR_KERNEL; VTK_SHEPARD_KERNEL;
      VTK_VORONOI_KERNEL ] /\
  In (Toolkit (New shepardKernel vtkShepardKernel))
    (events example_failing_interpolation (Held 0)) /\
  ~ In (Toolkit (Invoke shepardKernel Delete))
      (events example_failing_interpolation (Held 0)).
Proof.
  split; [exact kernel_methods_Shepard|].
  destruct (kernel_deleted_after_use interpolation_fails (Held 1)
              example_size example_spacing example_origin (Held 2)
              VTK_SHEPARD_KERNEL (Held 0) kernel_methods_Shepard)
    as (_ & _ & _ & _ & _ & _ & Hleak).
  exact (proj2 (Hleak eq_refl interpolation_fails_only)).
Defined.

Lemma Shepard_radius_set :
  In (Toolkit (Invoke shepardKernel (SetRadius 1.1%float)))
    (events (VTKPointInterpolatorResampling never (Held 1) example_size
               example_spacing example_origin VTK_SHEPARD_KERNEL (Held 2))
       (Held 0)).
Proof. in_evaluated. Defined.

Lemma radius_never_negative_witness :
  In (Toolkit (Invoke shepardKernel (SetRadius 1.1%float)))
    (events (VTKPointInterpolatorResampling never (Held 1) example_size
               example_spacing example_origin VTK_SHEPARD_KERNEL (Held 2))
       (Held 0)) /\
  PrimFloat.ltb 1.1%float 0%float = false.
Proof.
  split; [exact Shepard_radius_set|].
  exact (radius_never_negative never (Held 1) example_size example_spacing
           example_origin (Held 2) VTK_SHEPARD_KERNEL (Held 0)
           shepardKernel 1.1%float Shepard_radius_set).
Defined.

(** On a grid of 2^21 x 2^21 x 2^21 voxels the product is 2^63, and the
    count the array is asked for is -2^63. *)
Lemma huge_scalars_allocated :
  In (Toolkit (Invoke scalars (AllocateValues (-9223372036854775808))))
    (events (VTKPointInterpolatorResampling never (Held 1) huge_size
               example_spacing example_origin VTK_SHEPARD_KERNEL (Held 2))
       (Held 0)).
Proof. in_evaluated. Defined.

Lemma huge_product_wraps :
  2 ^ 63 <= (elem0 huge_size * elem1 huge_size * elem2 huge_size) mod 2 ^ 64.
Proof. vm_compute. discriminate. Defined.

Lemma scalars_allocation_witness :
  In (Toolkit (Invoke scalars (AllocateValues (-9223372036854775808))))
    (events (VTKPointInterpolatorResampling never (Held 1) huge_size
               example_spacing example_origin VTK_SHEPARD_KERNEL (Held 2))
       (Held 0)) /\
  -9223372036854775808 < 0.
Proof.
  split; [exact huge_scalars_allocated|].
  destruct (scalars_allocation never (Held 1) huge_size example_spacing
              example_origin (Held 2) VTK_SHEPARD_KERNEL (Held 0) scalars
              (-9223372036854775808) huge_scalars_allocated)
    as (_ & _ & _ & _ & Hneg & _).
  exact (proj2 Hneg huge_product_wraps).
Defined.
